(** * PDF processing tools: fetch, extract, result envelope

    A shallow embedding of [tools.py]: the [PDFProcessor] methods
    [download_pdf], [extract_text_pypdf2], [extract_text_pdfplumber] and
    [process_pdf_from_url], and the module-level tool functions
    [download_and_parse_pdf] and [get_pdf_metadata].

    The third-party libraries the module calls ([urllib.parse], [requests],
    [PyPDF2], [pdfplumber]) are not part of the repository: they are the
    fields of an environment record [Env], and every theorem quantifies
    over it.  Exceptions, the network requests issued and the log records
    written are explicit: a computation takes the trace of events so far
    and returns a value or a raised exception together with the extended
    trace. *)

From Stdlib Require Import String Ascii List Arith Bool ZArith Lia Sorted.
From Stdlib Require Import Decimal DecimalString DecimalNat.
Import ListNotations.
Open Scope string_scope.

(** ** Python values and strings *)

Module Py.

(** The values a dynamically typed argument may hold: [None], a [bool], an
    [int] or a [str]; values of other types ([bytes], containers, instances
    of user classes) are outside the model.  [str] is a sequence of code
    points; the model keeps the code points below 256. *)
Inductive pyval : Type :=
| PyNone
| PyBool (b : bool)
| PyInt (z : Z)
| PyStr (s : string).

(** The line feed, and the string ["\n"]. *)
Definition newline : ascii := "010"%char.

Definition nl : string := String newline "".

Definition str_of_nat (n : nat) : string :=
  NilEmpty.string_of_uint (Nat.to_uint n).

Definition str_of_Z (z : Z) : string :=
  NilEmpty.string_of_int (Z.to_int z).

(** The text of [str(v)], where the conversion is allowed (see [py_format]
    below for the [int]s that CPython refuses to convert). *)
Definition py_str (v : pyval) : string :=
  match v with
  | PyNone => "None"
  | PyBool true => "True"
  | PyBool false => "False"
  | PyInt z => str_of_Z z
  | PyStr s => s
  end.

(** [type(v).__name__], as it appears in an [AttributeError] message. *)
Definition type_name (v : pyval) : string :=
  match v with
  | PyNone => "NoneType"
  | PyBool _ => "bool"
  | PyInt _ => "int"
  | PyStr _ => "str"
  end.

(** [bool(v)]. *)
Definition truthy (v : pyval) : bool :=
  match v with
  | PyNone => false
  | PyBool b => b
  | PyInt z => negb (Z.eqb z 0)
  | PyStr s => negb (String.eqb s "")
  end.

(** [isinstance(v, str)]. *)
Definition isinstance_str (v : pyval) : bool :=
  match v with
  | PyStr _ => true
  | _ => false
  end.

(** [v == s] for a string literal [s]. *)
Definition eq_str (v : pyval) (s : string) : bool :=
  match v with
  | PyStr s' => String.eqb s' s
  | _ => false
  end.

(** [c.isspace()] on a code point below 256. *)
Definition is_space (c : ascii) : bool :=
  let n := nat_of_ascii c in
  (((9 <=? n) && (n <=? 13)) || ((28 <=? n) && (n <=? 32))
   || (n =? 133) || (n =? 160))%nat.

(** [c.lower()] on a code point below 256. *)
Definition lower_char (c : ascii) : ascii :=
  let n := nat_of_ascii c in
  if (((65 <=? n) && (n <=? 90))
      || ((192 <=? n) && (n <=? 222) && negb (n =? 215)))%nat
  then ascii_of_nat (n + 32) else c.

Fixpoint lower (s : string) : string :=
  match s with
  | EmptyString => EmptyString
  | String c s' => String (lower_char c) (lower s')
  end.

Fixpoint lstrip (s : string) : string :=
  match s with
  | EmptyString => EmptyString
  | String c s' => if is_space c then lstrip s' else s
  end.

Fixpoint rstrip (s : string) : string :=
  match s with
  | EmptyString => EmptyString
  | String c s' =>
      match rstrip s' with
      | EmptyString => if is_space c then EmptyString else String c EmptyString
      | r => String c r
      end
  end.

(** [s.strip()]. *)
Definition strip (s : string) : string := rstrip (lstrip s).

(** [s.startswith(p)]. *)
Definition startswith (p s : string) : bool := String.prefix p s.

(** [sub in s]. *)
Fixpoint contains (sub s : string) : bool :=
  startswith sub s
  || match s with
     | EmptyString => false
     | String _ s' => contains sub s'
     end.

(** [s.endswith(p)]. *)
Fixpoint endswith (p s : string) : bool :=
  String.eqb p s
  || match s with
     | EmptyString => false
     | String _ s' => endswith p s'
     end.

(** [s.count(sub)]: the occurrences of [sub] in [s] that do not overlap,
    scanning from the left.  [skip] is the number of characters still
    covered by the occurrence found last. *)
Fixpoint count_from (sub s : string) (skip : nat) : nat :=
  match s with
  | EmptyString => 0
  | String _ s' =>
      match skip with
      | S k => count_from sub s' k
      | O => if startswith sub s
             then S (count_from sub s' (String.length sub - 1))
             else count_from sub s' 0
      end
  end.

Definition count (sub s : string) : nat :=
  match sub with
  | EmptyString => S (String.length s)
  | _ => count_from sub s 0
  end.

(** [sep.join(parts)]. *)
Definition join (sep : string) (parts : list string) : string :=
  String.concat sep parts.

End Py.
Import Py.

(** ** Exceptions, events and computations *)

Inductive exn_class : Type :=
| RequestException   (**r [requests.exceptions.RequestException] and subclasses *)
| AttributeError
| ValueError
| OtherException.    (**r any other subclass of [Exception] *)

Record exn : Type := Exn { exn_cls : exn_class; exn_msg : string }.

(** The outcome of a call: a value, or a raised exception. *)
Inductive Result (A : Type) : Type :=
| Ok (a : A)
| Raise (e : exn).
Arguments Ok {A} a.
Arguments Raise {A} e.

Inductive level : Type := Info | Warning | Error.

Inductive event : Type :=
| EGet (url : pyval) (timeout : nat)    (**r [session.get(url, timeout=..., stream=True)] *)
| EHead (url : pyval) (timeout : nat)   (**r [session.head(url, timeout=...)] *)
| ELog (lvl : level) (msg : string).    (**r a record written to [logger] *)

Definition trace := list event.

Definition M (A : Type) : Type := trace -> Result A * trace.

Definition ret {A} (a : A) : M A := fun t => (Ok a, t).

Definition raise {A} (e : exn) : M A := fun t => (Raise e, t).

Definition bind {A B} (m : M A) (f : A -> M B) : M B :=
  fun t =>
    match m t with
    | (Ok a, t') => f a t'
    | (Raise e, t') => (Raise e, t')
    end.

Notation "x <- m ;; k" := (bind m (fun x => k))
  (at level 61, m at next level, right associativity).
Notation "m ;;; k" := (bind m (fun _ => k))
  (at level 61, right associativity).

(** [try: body  except Exception as e: handler e]. *)
Definition try_except {A} (body : M A) (handler : exn -> M A) : M A :=
  fun t =>
    match body t with
    | (Ok a, t') => (Ok a, t')
    | (Raise e, t') => handler e t'
    end.

Definition emit (ev : event) : M unit := fun t => (Ok tt, (t ++ [ev])%list).

Definition log (lvl : level) (msg : string) : M unit := emit (ELog lvl msg).

(** Lifting the outcome of a library call. *)
Definition call {A} (r : Result A) : M A := fun t => (r, t).

(** The exception that [v.name] raises when [v] has no such attribute. *)
Definition attribute_error (v : pyval) (name : string) : exn :=
  Exn AttributeError
      ("'" ++ type_name v ++ "' object has no attribute '" ++ name ++ "'").

(** [v.name()] for a [str] method: an [AttributeError] on anything else. *)
Definition str_method (name : string) (f : string -> string) (v : pyval)
  : M string :=
  match v with
  | PyStr s => ret (f s)
  | _ => raise (attribute_error v name)
  end.

(** [str(v)] and an f-string field [{v}].  CPython (3.11, and the security
    releases of 3.7 to 3.10) refuses to convert an [int] of more than 4300
    decimal digits, the default of [sys.set_int_max_str_digits], and raises
    [ValueError]; every other value of the model converts. *)
Definition max_str_digits : Z := 4300.

Definition int_too_long (z : Z) : bool :=
  (10 ^ max_str_digits <=? Z.abs z)%Z.

Definition int_str_error : exn :=
  Exn ValueError
      ("Exceeds the limit (4300 digits) for integer string conversion; "
       ++ "use sys.set_int_max_str_digits() to increase the limit").

Definition py_format (v : pyval) : Result string :=
  match v with
  | PyInt z => if int_too_long z then Raise int_str_error else Ok (py_str v)
  | _ => Ok (py_str v)
  end.

Definition fstring (v : pyval) : M string := call (py_format v).

Arguments int_too_long : simpl never.

(** ** The libraries *)

Definition bytes := list Byte.byte.

(** What [urlparse] returns, as far as the module reads it. *)
Record ParseResult : Type := { scheme : string; netloc : string }.

(** A [requests.Response], as far as the module reads it.  [header k] is
    [response.headers.get(k)]; [content] may raise (the body of a streamed
    response is read by [content]); [reason] and [response_url] are the
    attributes [reason] and [url], which the message of [raise_for_status]
    quotes. *)
Record Response : Type := {
  status_code : Z;
  reason : string;
  response_url : string;
  header : string -> option string;
  content : Result bytes
}.

(** [response.raise_for_status()], as the [requests] library defines it: an
    [HTTPError] (a [RequestException]) for a status from 400 to 599, and
    nothing for any other status, 1xx and 3xx included. *)
Definition raise_for_status (r : Response) : Result unit :=
  if ((400 <=? status_code r) && (status_code r <? 500))%Z
  then Raise (Exn RequestException
                (str_of_Z (status_code r) ++ " Client Error: " ++ reason r
                   ++ " for url: " ++ response_url r))
  else if ((500 <=? status_code r) && (status_code r <? 600))%Z
  then Raise (Exn RequestException
                (str_of_Z (status_code r) ++ " Server Error: " ++ reason r
                   ++ " for url: " ++ response_url r))
  else Ok tt.

(** The outcome of [page.extract_text()]: a string, [None], or an exception. *)
Definition Page := Result (option string).

Record Env : Type := {
  urlparse : pyval -> Result ParseResult;
  session_get : pyval -> nat -> Result Response;
  session_head : pyval -> nat -> Result Response;
  (** [PyPDF2.PdfReader(BytesIO(b))] and its [pages] *)
  PdfReader : bytes -> Result (list Page);
  (** [pdfplumber.open(BytesIO(b))] and its [pages] *)
  pdfplumber_open : bytes -> Result (list Page)
}.

Definition headers_get (r : Response) (k default : string) : string :=
  match header r k with
  | Some v => v
  | None => default
  end.

(** ** [PDFProcessor] *)

Definition http_get (env : Env) (url : pyval) (timeout : nat) : M Response :=
  emit (EGet url timeout) ;;; call (session_get env url timeout).

Definition http_head (env : Env) (url : pyval) (timeout : nat) : M Response :=
  emit (EHead url timeout) ;;; call (session_head env url timeout).

(** [download_pdf(self, url, timeout)]: the body as bytes, or [None].  The
    f-strings that quote [url] are evaluated where the source has them, the
    one of the [RequestException] handler included. *)
Definition download_pdf (env : Env) (url : pyval) (timeout : nat)
  : M (option bytes) :=
  try_except
    (shown <- fstring url ;;
     log Info ("Downloading PDF from: " ++ shown) ;;;
     parsed_url <- call (urlparse env url) ;;
     if String.eqb (scheme parsed_url) "" || String.eqb (netloc parsed_url) ""
     then
       shown <- fstring url ;;
       log Error ("Invalid URL format: " ++ shown) ;;;
       ret None
     else
       response <- http_get env url timeout ;;
       call (raise_for_status response) ;;;
       let content_type := lower (headers_get response "content-type" "") in
       (if contains "pdf" content_type then ret tt
        else
          lowered <- str_method "lower" lower url ;;
          if endswith ".pdf" lowered then ret tt
          else log Warning ("URL might not be a PDF. Content-Type: "
                              ++ content_type)) ;;;
       pdf_content <- call (content response) ;;
       log Info ("Successfully downloaded PDF ("
                   ++ str_of_nat (List.length pdf_content) ++ " bytes)") ;;;
       ret (Some pdf_content))
    (fun e =>
       match exn_cls e with
       | RequestException =>
           shown <- fstring url ;;
           log Error ("Error downloading PDF from " ++ shown ++ ": "
                        ++ exn_msg e) ;;;
           ret None
       | _ =>
           log Error ("Unexpected error downloading PDF: " ++ exn_msg e) ;;;
           ret None
       end).

(** The page-boundary marker [f"\n--- Page {page_num} ---\n"]. *)
Definition page_marker (page_num : nat) : string :=
  nl ++ "--- Page " ++ str_of_nat page_num ++ " ---" ++ nl.

Definition page_warning (page_num : nat) (e : exn) : M unit :=
  log Warning ("Error extracting text from page " ++ str_of_nat page_num
                 ++ ": " ++ exn_msg e).

(** The page loop of [extract_text_pypdf2], from page [page_num] on;
    [text_content] is the list built so far.  [page_text.strip()] raises
    when [extract_text] returned [None]. *)
Fixpoint pypdf2_pages (pages : list Page) (page_num : nat)
         (text_content : list string) : M (list string) :=
  match pages with
  | [] => ret text_content
  | page :: rest =>
      text_content' <-
        try_except
          (page_text <- call page ;;
           match page_text with
           | Some s =>
               if negb (String.eqb (strip s) "")
               then ret (text_content ++ [page_marker page_num; s])%list
               else ret text_content
           | None => raise (attribute_error PyNone "strip")
           end)
          (fun e => page_warning page_num e ;;; ret text_content) ;;
      pypdf2_pages rest (S page_num) text_content'
  end.

(** [extract_text_pypdf2(self, pdf_content)]. *)
Definition extract_text_pypdf2 (env : Env) (pdf_content : bytes) : M string :=
  try_except
    (pages <- call (PdfReader env pdf_content) ;;
     log Info ("Processing PDF with " ++ str_of_nat (List.length pages)
                 ++ " pages using PyPDF2") ;;;
     text_content <- pypdf2_pages pages 1 [] ;;
     ret (join nl text_content))
    (fun e =>
       log Error ("Error extracting text with PyPDF2: " ++ exn_msg e) ;;;
       ret "").

(** The page loop of [extract_text_pdfplumber]: [page_text and
    page_text.strip()] does not call [strip] on [None]. *)
Fixpoint pdfplumber_pages (pages : list Page) (page_num : nat)
         (text_content : list string) : M (list string) :=
  match pages with
  | [] => ret text_content
  | page :: rest =>
      text_content' <-
        try_except
          (page_text <- call page ;;
           match page_text with
           | Some s =>
               if negb (String.eqb s "") && negb (String.eqb (strip s) "")
               then ret (text_content ++ [page_marker page_num; s])%list
               else ret text_content
           | None => ret text_content
           end)
          (fun e => page_warning page_num e ;;; ret text_content) ;;
      pdfplumber_pages rest (S page_num) text_content'
  end.

(** [extract_text_pdfplumber(self, pdf_content)]. *)
Definition extract_text_pdfplumber (env : Env) (pdf_content : bytes)
  : M string :=
  try_except
    (pages <- call (pdfplumber_open env pdf_content) ;;
     log Info ("Processing PDF with " ++ str_of_nat (List.length pages)
                 ++ " pages using pdfplumber") ;;;
     text_content <- pdfplumber_pages pages 1 [] ;;
     ret (join nl text_content))
    (fun e =>
       log Error ("Error extracting text with pdfplumber: " ++ exn_msg e) ;;;
       ret "").

(** The result dictionary of [process_pdf_from_url]. *)
Record Metadata : Type := {
  url : pyval;
  method : pyval;
  pages_processed : nat;
  content_length : nat
}.

Record PipelineResult : Type := {
  success : bool;
  text : string;
  error : option string;
  metadata : Metadata
}.

Definition set_error (r : PipelineResult) (e : string) : PipelineResult :=
  {| success := success r; text := text r; error := Some e;
     metadata := metadata r |}.

(** [not pdf_content], for the [Optional[bytes]] that [download_pdf]
    returns: true on [None] and on the empty byte string. *)
Definition not_bytes (pdf_content : option bytes) : bool :=
  match pdf_content with
  | None => true
  | Some [] => true
  | Some (_ :: _) => false
  end.

Definition bytes_of (pdf_content : option bytes) : bytes :=
  match pdf_content with
  | Some b => b
  | None => []
  end.

Definition default_timeout : nat := 30.

(** [process_pdf_from_url(self, url, method)].  The dictionary [result] is
    updated in place in the source; its updates on the success path come
    after the last statement that can raise, so the handler sees the
    initial dictionary. *)
Definition process_pdf_from_url (env : Env) (url method : pyval)
  : M PipelineResult :=
  let result :=
    {| success := false; text := ""; error := None;
       metadata := {| url := url; method := method;
                      pages_processed := 0; content_length := 0 |} |} in
  try_except
    (pdf_content <- download_pdf env url default_timeout ;;
     if not_bytes pdf_content
     then ret (set_error result "Failed to download PDF")
     else
       lowered <- str_method "lower" lower method ;;
       extracted_text <-
         (if String.eqb lowered "pdfplumber"
          then extract_text_pdfplumber env (bytes_of pdf_content)
          else extract_text_pypdf2 env (bytes_of pdf_content)) ;;
       if String.eqb (strip extracted_text) ""
       then ret (set_error result "No text could be extracted from PDF")
       else
         let result :=
           {| success := true; text := extracted_text; error := error result;
              metadata :=
                {| url := url; method := method;
                   pages_processed := count "--- Page" extracted_text;
                   content_length := String.length extracted_text |} |} in
         log Info ("Successfully processed PDF: "
                     ++ str_of_nat (String.length extracted_text)
                     ++ " characters extracted") ;;;
         ret result)
    (fun e =>
       let result :=
         set_error result ("Unexpected error processing PDF: " ++ exn_msg e) in
       log Error ("Unexpected error processing PDF: " ++ exn_msg e) ;;;
       ret result).

(** ** The tool functions *)

(** The report that [download_and_parse_pdf] builds from a successful
    result: the header f-string followed by the text.  Where the source
    evaluates it, [url] has passed [isinstance(url, str)] and the method is
    one of the two recognized strings, so both fields convert. *)
Definition report_header (m : Metadata) : string :=
  nl ++ "=== PDF Processing Results ===" ++ nl
  ++ "Source URL: " ++ py_str (url m) ++ nl
  ++ "Pages Processed: " ++ str_of_nat (pages_processed m) ++ nl
  ++ "Content Length: " ++ str_of_nat (content_length m) ++ " characters" ++ nl
  ++ "Extraction Method: " ++ py_str (method m) ++ nl
  ++ "=== Text Content ===" ++ nl
  ++ nl.

Definition format_report (result : PipelineResult) : string :=
  report_header (metadata result) ++ text result.

(** [f"{result['error']}"]. *)
Definition str_of_error (e : option string) : string :=
  match e with
  | Some s => s
  | None => "None"
  end.

(** [download_and_parse_pdf(url, extraction_method)]. *)
Definition download_and_parse_pdf (env : Env) (url extraction_method : pyval)
  : M string :=
  try_except
    (shown <- fstring url ;;
     log Info ("Processing PDF from URL: " ++ shown) ;;;
     if negb (truthy url) || negb (isinstance_str url)
     then ret "Error: Invalid URL provided"
     else
       extraction_method <-
         (if negb (eq_str extraction_method "pdfplumber"
                   || eq_str extraction_method "pypdf2")
          then
            log Warning "Invalid extraction method, using default: pdfplumber" ;;;
            ret (PyStr "pdfplumber")
          else ret extraction_method) ;;
       result <- process_pdf_from_url env url extraction_method ;;
       if success result
       then ret (format_report result)
       else
         let error_msg := "Failed to process PDF: " ++ str_of_error (error result) in
         log Error error_msg ;;;
         ret error_msg)
    (fun e =>
       let error_msg :=
         "Unexpected error in download_and_parse_pdf: " ++ exn_msg e in
       log Error error_msg ;;;
       ret error_msg).

(** A dictionary literal with string keys, in the order it is written. *)
Definition dict := list (string * pyval).

(** [get_pdf_metadata(url)]. *)
Definition get_pdf_metadata (env : Env) (url : pyval) : M dict :=
  try_except
    (response <- http_head env url 10 ;;
     call (raise_for_status response) ;;;
     ret [ ("content_type", PyStr (headers_get response "content-type" ""));
           ("content_length", PyStr (headers_get response "content-length" ""));
           ("last_modified", PyStr (headers_get response "last-modified" ""));
           ("status_code", PyInt (status_code response));
           ("url", url) ])
    (fun e => ret [ ("error", PyStr (exn_msg e)); ("url", url) ]).

(** * Statements

    The definitions the theorems are stated with. *)

(** ** Strategies and pages *)

(** The two extraction strategies, and the spec's [extract(bytes, strategy)]. *)
Inductive strategy : Type := Pdfplumber | Pypdf2.

Definition extract (env : Env) (st : strategy) (pdf_content : bytes) : M string :=
  match st with
  | Pdfplumber => extract_text_pdfplumber env pdf_content
  | Pypdf2 => extract_text_pypdf2 env pdf_content
  end.

Definition open_document (env : Env) (st : strategy) (pdf_content : bytes)
  : Result (list Page) :=
  match st with
  | Pdfplumber => pdfplumber_open env pdf_content
  | Pypdf2 => PdfReader env pdf_content
  end.

Definition strategy_name (st : strategy) : string :=
  match st with
  | Pdfplumber => "pdfplumber"
  | Pypdf2 => "PyPDF2"
  end.

(** The text a page contributes, if it contributes a marker at all. *)
Definition page_emits (page : Page) : option string :=
  match page with
  | Ok (Some s) => if String.eqb (strip s) "" then None else Some s
  | _ => None
  end.

(** The strings the page loop appends for [pages], numbered from [page_num]. *)
Fixpoint page_blocks (pages : list Page) (page_num : nat) : list string :=
  match pages with
  | [] => []
  | page :: rest =>
      match page_emits page with
      | Some s => page_marker page_num :: s :: page_blocks rest (S page_num)
      | None => page_blocks rest (S page_num)
      end
  end.

(** The numbers of the pages that contribute a marker. *)
Fixpoint pages_emitted (pages : list Page) (page_num : nat) : list nat :=
  match pages with
  | [] => []
  | page :: rest =>
      match page_emits page with
      | Some _ => page_num :: pages_emitted rest (S page_num)
      | None => pages_emitted rest (S page_num)
      end
  end.

(** The warnings the page loop of a strategy logs. *)
Definition page_warns (st : strategy) (page : Page) : option exn :=
  match page with
  | Raise e => Some e
  | Ok None =>
      match st with
      | Pypdf2 => Some (attribute_error PyNone "strip")
      | Pdfplumber => None
      end
  | Ok (Some _) => None
  end.

Fixpoint page_warnings (st : strategy) (pages : list Page) (page_num : nat)
  : trace :=
  match pages with
  | [] => []
  | page :: rest =>
      match page_warns st page with
      | Some e =>
          ELog Warning ("Error extracting text from page "
                          ++ str_of_nat page_num ++ ": " ++ exn_msg e)
          :: page_warnings st rest (S page_num)
      | None => page_warnings st rest (S page_num)
      end
  end.

Definition page_loop (st : strategy) :=
  match st with
  | Pdfplumber => pdfplumber_pages
  | Pypdf2 => pypdf2_pages
  end.

(** ** Results, requests and outcomes *)

(** The envelope invariant of a [PipelineResult]. *)
Definition envelope_invariant (r : PipelineResult) : Prop :=
  (success r = true -> error r = None /\ text r <> "")
  /\ (success r = false -> text r = "" /\ exists e, error r = Some e).

(** The network requests recorded in a trace. *)
Definition is_request (ev : event) : bool :=
  match ev with
  | EGet _ _ | EHead _ _ => true
  | ELog _ _ => false
  end.

Definition requests (t : trace) : list event := filter is_request t.

(** The result dictionary of a failed run. *)
Definition failure_result (u m : pyval) (e : string) : PipelineResult :=
  {| success := false; text := ""; error := Some e;
     metadata := {| url := u; method := m;
                    pages_processed := 0; content_length := 0 |} |}.

(** The strategy [process_pdf_from_url] dispatches a method string to. *)
Definition dispatch (m : string) : strategy :=
  if String.eqb (lower m) "pdfplumber" then Pdfplumber else Pypdf2.

(** The text [extract] returns, and what it logs. *)
Definition extracted (env : Env) (st : strategy) (b : bytes) : string :=
  match open_document env st b with
  | Ok pages => join nl (page_blocks pages 1)
  | Raise _ => ""
  end.

Definition extract_log (env : Env) (st : strategy) (b : bytes) : trace :=
  match open_document env st b with
  | Ok pages =>
      ELog Info ("Processing PDF with " ++ str_of_nat (List.length pages)
                   ++ " pages using " ++ strategy_name st)
      :: page_warnings st pages 1
  | Raise e =>
      [ELog Error ("Error extracting text with " ++ strategy_name st ++ ": "
                     ++ exn_msg e)]
  end.

(** The request failed: the GET raised, [raise_for_status] raised, or
    reading the body raised. *)
Definition fetch_fails (env : Env) (u : pyval) (timeout : nat) : Prop :=
  match session_get env u timeout with
  | Raise _ => True
  | Ok response =>
      match raise_for_status response with
      | Raise _ => True
      | Ok _ =>
          match content response with
          | Raise _ => True
          | Ok _ => False
          end
      end
  end.

Definition success_result (u m : pyval) (txt : string) : PipelineResult :=
  {| success := true; text := txt; error := None;
     metadata := {| url := u; method := m;
                    pages_processed := count "--- Page" txt;
                    content_length := String.length txt |} |}.

(** ** Concrete environments and documents *)

Definition pdf_response (body : bytes) : Response :=
  {| status_code := 200;
     header := fun k => if String.eqb k "content-type"
                        then Some "application/pdf" else None;
     reason := "OK";
     response_url := "https://example.org/a.pdf";
     content := Ok body |}.

Definition example_body : bytes := [Byte.x25; Byte.x50; Byte.x44; Byte.x46].

(** Every URL parses and downloads [body]; both libraries read [pages]. *)
Definition env_of (body : bytes) (pages : Result (list Page)) : Env :=
  {| urlparse := fun _ => Ok {| scheme := "https"; netloc := "example.org" |};
     session_get := fun _ _ => Ok (pdf_response body);
     session_head := fun _ _ => Ok (pdf_response []);
     PdfReader := fun _ => pages;
     pdfplumber_open := fun _ => pages |}.

Definition corrupt_page : Page := Raise (Exn OtherException "corrupt page").

(** ** Expected texts and page counts *)

(** The text expected of a document of [n] pages whose page [k] is left
    out: marker and text of every other page, in ascending order. *)
Definition text_without (n k : nat) (texts : nat -> string) : string :=
  join nl (flat_map (fun i => [page_marker i; texts i])
                    (filter (fun i => negb (Nat.eqb i k)) (seq 1 n))).

Definition three_pages : list Page :=
  [Ok (Some "alpha"); corrupt_page; Ok (Some "gamma")].

Definition three_texts (i : nat) : string :=
  match i with
  | 1 => "alpha"
  | _ => "gamma"
  end.

(** The spec's count: the page-boundary markers ["--- Page <n> ---"] in a
    text.  [is_digit] and [skip_digits] read the page number. *)
Definition is_digit (c : ascii) : bool :=
  let n := nat_of_ascii c in ((48 <=? n) && (n <=? 57))%nat.

Fixpoint skip_digits (s : string) : string :=
  match s with
  | String c s' => if is_digit c then skip_digits s' else s
  | EmptyString => EmptyString
  end.

(** [s] starts with ["--- Page "], one digit or more, and [" ---"]. *)
Definition marker_at (s : string) : bool :=
  startswith "--- Page " s
  && match substring 9 (String.length s - 9) s with
     | String c rest => is_digit c && startswith " ---" (skip_digits rest)
     | EmptyString => false
     end.

Fixpoint markers_in (s : string) : nat :=
  match s with
  | EmptyString => 0
  | String _ s' => (if marker_at s then 1 else 0) + markers_in s'
  end.

Definition page_with_dashes : list Page := [Ok (Some "see --- Page break")].

(** ** Traces, methods and messages *)

(** A computation is [uniform] when its outcome and the events it adds do
    not depend on the trace it starts from. *)
Definition uniform {A} (m : M A) : Prop :=
  exists r l, forall t, m t = (r, (t ++ l)%list).

(** [extraction_method in ["pdfplumber", "pypdf2"]]. *)
Definition recognized (m : pyval) : bool :=
  eq_str m "pdfplumber" || eq_str m "pypdf2".




(** ** More environments *)

Definition two_library_env : Env :=
  {| urlparse := fun _ => Ok {| scheme := "https"; netloc := "example.org" |};
     session_get := fun _ _ => Ok (pdf_response example_body);
     session_head := fun _ _ => Ok (pdf_response []);
     PdfReader := fun _ => Ok [Ok (Some "read by PyPDF2")];
     pdfplumber_open := fun _ => Ok [Ok (Some "read by pdfplumber")] |}.

(** The server answers 200 with an empty body. *)
Definition empty_body_env : Env := env_of [] (Raise (Exn OtherException "EOF marker not found")).

(** [urlparse] finds neither scheme nor host in the empty string; every
    request fails to connect. *)
Definition offline_env : Env :=
  {| urlparse := fun u =>
       match u with
       | PyStr "" => Ok {| scheme := ""; netloc := "" |}
       | _ => Ok {| scheme := "https"; netloc := "example.org" |}
       end;
     session_get := fun _ _ => Raise (Exn RequestException "connection refused");
     session_head := fun _ _ => Raise (Exn RequestException "connection refused");
     PdfReader := fun _ => Ok [];
     pdfplumber_open := fun _ => Ok [] |}.

Definition garbage_env : Env :=
  env_of example_body (Raise (Exn OtherException "EOF marker not found")).

(** A server that answers every request with one status and [body]. *)
Definition status_response (code : Z) (why : string) (body : bytes)
  : Response :=
  {| status_code := code;
     reason := why;
     response_url := "https://example.org/a.pdf";
     header := fun k => if String.eqb k "content-type"
                        then Some "application/pdf" else None;
     content := Ok body |}.

Definition status_env (code : Z) (why : string) (body : bytes) : Env :=
  {| urlparse := fun _ => Ok {| scheme := "https"; netloc := "example.org" |};
     session_get := fun _ _ => Ok (status_response code why body);
     session_head := fun _ _ => Ok (status_response code why []);
     PdfReader := fun _ => Ok three_pages;
     pdfplumber_open := fun _ => Ok three_pages |}.

(** The statuses for which [raise_for_status] raises, and the message of
    its [HTTPError]. *)
Definition is_error_status (code : Z) : bool :=
  ((400 <=? code) && (code <? 600))%Z.

Definition http_error_message (r : Response) : string :=
  str_of_Z (status_code r)
  ++ (if (status_code r <? 500)%Z then " Client Error: " else " Server Error: ")
  ++ reason r ++ " for url: " ++ response_url r.

(** An [int] that [str] refuses to convert. *)
Definition huge_int : pyval := PyInt (10 ^ 5000).

(** The network-layer errors of a GET: the request raises (connection
    error, timeout), the answer has a status from 400 to 599, or reading
    its body raises. *)
Definition network_error (env : Env) (u : pyval) (timeout : nat) : Prop :=
  (exists e, session_get env u timeout = Raise e)
  \/ (exists r, session_get env u timeout = Ok r
                /\ ((400 <= status_code r < 600)%Z
                    \/ exists e, content r = Raise e)).

(** ** The checks and messages of [download_and_parse_pdf] *)

(** The URL check of [download_and_parse_pdf]: [not url or not
    isinstance(url, str)]. *)
Definition invalid_url (u : pyval) : bool :=
  negb (truthy u) || negb (isinstance_str u).

Definition failed_prefix : string := "Failed to process PDF: ".
Definition unexpected_prefix : string :=
  "Unexpected error in download_and_parse_pdf: ".

(** ** Reading a report back *)

(** The header fields and the content section of a report. *)
Record ReportFields : Type := {
  source_url : string;
  pages : nat;
  length_field : nat;
  extraction_method : string;
  content_section : string
}.

(** [s] without the prefix [p], if it starts with it. *)
Fixpoint strip_prefix (p s : string) : option string :=
  match p, s with
  | EmptyString, _ => Some s
  | String a p', String b s' =>
      if Ascii.eqb a b then strip_prefix p' s' else None
  | String _ _, EmptyString => None
  end.

(** [s] split at the first occurrence of [c]. *)
Fixpoint split_at (c : ascii) (s : string) : option (string * string) :=
  match s with
  | EmptyString => None
  | String a s' =>
      if Ascii.eqb a c then Some (EmptyString, s')
      else match split_at c s' with
           | Some (l, r) => Some (String a l, r)
           | None => None
           end
  end.

Fixpoint mem_char (c : ascii) (s : string) : bool :=
  match s with
  | EmptyString => false
  | String a s' => Ascii.eqb a c || mem_char c s'
  end.

Definition nat_of_str (s : string) : option nat :=
  option_map Nat.of_uint (NilEmpty.uint_of_string s).

Definition opt_bind {A B} (o : option A) (f : A -> option B) : option B :=
  match o with
  | Some a => f a
  | None => None
  end.

(** Modelled from the spec: the repository formats reports and has no
    function that reads them back; [parse_report] is the reader the round
    trip of the spec is stated with.  It follows the header line by line
    (URL, pages processed, content length, method) and takes what follows
    the content label as the content section. *)
Definition parse_report (s : string) : option ReportFields :=
  opt_bind (strip_prefix (nl ++ "=== PDF Processing Results ===" ++ nl
                             ++ "Source URL: ") s) (fun s1 =>
  opt_bind (split_at newline s1) (fun '(u, s2) =>
  opt_bind (strip_prefix "Pages Processed: " s2) (fun s3 =>
  opt_bind (split_at newline s3) (fun '(pp, s4) =>
  opt_bind (nat_of_str pp) (fun pp =>
  opt_bind (strip_prefix "Content Length: " s4) (fun s5 =>
  opt_bind (split_at " " s5) (fun '(cl, s6) =>
  opt_bind (nat_of_str cl) (fun cl =>
  opt_bind (strip_prefix ("characters" ++ nl ++ "Extraction Method: ") s6)
           (fun s7 =>
  opt_bind (split_at newline s7) (fun '(m, s8) =>
  opt_bind (strip_prefix ("=== Text Content ===" ++ nl ++ nl) s8) (fun txt =>
  Some {| source_url := u; pages := pp; length_field := cl;
          extraction_method := m; content_section := txt |}))))))))))).

(** ** Two documents with one report *)

(** Two documents whose reports coincide.  The second URL continues, after
    a line break, with the header lines and the first marker of the first
    report; the text of the first document continues with the header lines
    and the text of the second. *)
Definition header_tail (pp cl : nat) (m : string) : string :=
  nl ++ "Pages Processed: " ++ str_of_nat pp ++ nl
  ++ "Content Length: " ++ str_of_nat cl ++ " characters" ++ nl
  ++ "Extraction Method: " ++ m ++ nl
  ++ "=== Text Content ===" ++ nl ++ nl.

Definition short_text : string := page_marker 1 ++ nl ++ "x".

Definition long_page : string :=
  header_tail (count "--- Page" short_text) (String.length short_text) "pypdf2"
  ++ short_text.

Definition long_text : string := page_marker 1 ++ nl ++ long_page.

Definition plain_url : string := "https://example.org/a.pdf".

Definition crafted_url : string :=
  plain_url
  ++ header_tail (count "--- Page" long_text) (String.length long_text) "pypdf2"
  ++ page_marker 1 ++ nl.

(** The server sends one document for [plain_url], another for the rest. *)
Definition two_document_env : Env :=
  {| urlparse := fun _ => Ok {| scheme := "https"; netloc := "example.org" |};
     session_get := fun u _ =>
       if eq_str u plain_url then Ok (pdf_response [Byte.x41])
       else Ok (pdf_response [Byte.x42]);
     session_head := fun _ _ => Ok (pdf_response []);
     PdfReader := fun b =>
       match b with
       | [Byte.x41] => Ok [Ok (Some long_page)]
       | _ => Ok [Ok (Some "x")]
       end;
     pdfplumber_open := fun _ => Ok [] |}.

(** ** Further statements *)

(** The text of a page, [""] when [extract_text] raised or returned [None]. *)
Definition page_text (page : Page) : string :=
  match page with
  | Ok (Some s) => s
  | _ => ""
  end.

(** Page [i] of a document, counting from 1. *)
Definition nth_page (pages : list Page) (i : nat) : Page :=
  nth (i - 1) pages (Ok None).

(** The occurrences of ["--- Page"] inside the texts of the pages that
    contribute a marker. *)
Fixpoint inner_occurrences (pages : list Page) : nat :=
  match pages with
  | [] => 0
  | page :: rest =>
      match page_emits page with
      | Some s => count "--- Page" s + inner_occurrences rest
      | None => inner_occurrences rest
      end
  end.

(** The page number a marker carries. *)
Definition marker_number (marker : string) : option nat :=
  opt_bind (strip_prefix (nl ++ "--- Page ") marker) (fun s =>
  opt_bind (split_at " " s) (fun '(digits, rest) =>
  if String.eqb rest ("---" ++ nl) then nat_of_str digits else None)).

(** The error-level records of a trace. *)
Definition is_error (ev : event) : bool :=
  match ev with
  | ELog Error _ => true
  | _ => false
  end.

Definition errors (t : trace) : list event := filter is_error t.

(** The environment with another PyPDF2, and with another pdfplumber. *)
Definition with_PdfReader (env : Env) (f : bytes -> Result (list Page)) : Env :=
  {| urlparse := urlparse env;
     session_get := session_get env;
     session_head := session_head env;
     PdfReader := f;
     pdfplumber_open := pdfplumber_open env |}.

Definition with_pdfplumber_open (env : Env) (f : bytes -> Result (list Page))
  : Env :=
  {| urlparse := urlparse env;
     session_get := session_get env;
     session_head := session_head env;
     PdfReader := PdfReader env;
     pdfplumber_open := f |}.

(** What [download_pdf] logs after a GET that succeeds for a string URL:
    the warning of the advisory check, if any, and the record of success. *)
Definition advisory_log (u : string) (response : Response) (body : bytes)
  : trace :=
  let content_type := lower (headers_get response "content-type" "") in
  ((if contains "pdf" content_type || endswith ".pdf" (lower u) then []
    else [ELog Warning ("URL might not be a PDF. Content-Type: "
                          ++ content_type)])
   ++ [ELog Info ("Successfully downloaded PDF ("
                    ++ str_of_nat (List.length body) ++ " bytes)")])%list.

(** A response whose declared type is not PDF. *)
Definition html_response (body : bytes) : Response :=
  {| status_code := 200;
     header := fun k => if String.eqb k "content-type"
                        then Some "Text/HTML" else None;
     reason := "OK";
     response_url := "https://example.org/a.pdf";
     content := Ok body |}.

Definition html_env : Env :=
  {| urlparse := fun _ => Ok {| scheme := "https"; netloc := "example.org" |};
     session_get := fun _ _ => Ok (html_response example_body);
     session_head := fun _ _ => Ok (html_response []);
     PdfReader := fun _ => Ok three_pages;
     pdfplumber_open := fun _ => Ok three_pages |}.

(** [d.get(k)] on a dictionary literal. *)
Fixpoint dict_get (k : string) (d : dict) : option pyval :=
  match d with
  | [] => None
  | (k', v) :: rest => if String.eqb k k' then Some v else dict_get k rest
  end.

(** A probe answered with a redirect and no headers of interest. *)
Definition bare_response : Response :=
  {| status_code := 301;
     header := fun _ => None;
     reason := "Moved Permanently";
     response_url := "https://example.org/a.pdf";
     content := Raise (Exn RequestException "body not available") |}.

Definition redirect_env : Env :=
  {| urlparse := fun _ => Ok {| scheme := "https"; netloc := "example.org" |};
     session_get := fun _ _ => Ok bare_response;
     session_head := fun _ _ => Ok bare_response;
     PdfReader := fun _ => Ok [];
     pdfplumber_open := fun _ => Ok [] |}.

(** Documents for the examples. *)
Definition pages_with_none : list Page :=
  [Ok (Some "alpha"); Ok None; Ok (Some "   "); corrupt_page; Ok (Some "omega")].

Definition dashed_pages : list Page :=
  [Ok (Some "--- Page --- Page"); corrupt_page; Ok (Some "plain")].

(** A server of two documents: the empty byte sequence opens as
    [three_pages], any other as the same pages followed by more. *)
Definition growing_env : Env :=
  {| urlparse := fun _ => Ok {| scheme := "https"; netloc := "example.org" |};
     session_get := fun _ _ => Ok bare_response;
     session_head := fun _ _ => Ok bare_response;
     PdfReader := fun b =>
       match b with
       | [] => Ok three_pages
       | _ => Ok (three_pages ++ pages_with_none)%list
       end;
     pdfplumber_open := fun b =>
       match b with
       | [] => Ok three_pages
       | _ => Ok (three_pages ++ pages_with_none)%list
       end |}.

(** * Theorems *)

(** ** The page loop and the extractors *)

Ltac run :=
  unfold bind, try_except, ret, raise, fstring, call, log, emit in *;
  simpl in *.

(** [str(v)] raises nothing but the [ValueError] of a long [int], and gives
    [py_str v] otherwise. *)
Lemma py_format_raise (v : pyval) (e : exn) :
  py_format v = Raise e -> e = int_str_error.
Proof.
  destruct v as [| |z|s]; simpl; try discriminate.
  destruct (int_too_long z); [now intros [= <-]|discriminate].
Qed.

Lemma py_format_ok (v : pyval) (shown : string) :
  py_format v = Ok shown -> shown = py_str v.
Proof.
  destruct v as [| |z|s]; simpl; try (now intros [= <-]).
  destruct (int_too_long z); [discriminate|now intros [= <-]].
Qed.

Lemma py_format_raise_int (v : pyval) (e : exn) :
  py_format v = Raise e -> exists z, v = PyInt z /\ int_too_long z = true.
Proof.
  destruct v as [| |z|s]; simpl; try discriminate.
  destruct (int_too_long z) eqn:E; [eauto|discriminate].
Qed.

Lemma strip_nonblank (s : string) : strip s <> "" -> s <> "".
Proof. intros H ->. apply H. reflexivity. Qed.

Lemma eqb_false_of_strip (s : string) :
  String.eqb (strip s) "" = false -> String.eqb s "" = false.
Proof.
  intros H. apply String.eqb_neq. apply strip_nonblank.
  now apply String.eqb_neq.
Qed.

(** The page loop of either strategy appends exactly [page_blocks] and logs
    exactly [page_warnings]; it never raises. *)
Lemma page_loop_spec (st : strategy) (pages : list Page) :
  forall page_num text_content t,
    page_loop st pages page_num text_content t
    = (Ok (text_content ++ page_blocks pages page_num)%list,
       (t ++ page_warnings st pages page_num)%list).
Proof.
  induction pages as [|page rest IH]; intros n acc t.
  - destruct st; simpl; unfold ret; now rewrite !app_nil_r.
  - destruct st; simpl in *;
      destruct page as [[s|]|e]; run; unfold page_warning; run.
    + destruct (String.eqb (strip s) "") eqn:E.
      * rewrite andb_false_r. simpl. apply IH.
      * rewrite (eqb_false_of_strip _ E). simpl.
        rewrite IH. now rewrite <- app_assoc.
    + apply IH.
    + rewrite IH. now rewrite <- app_assoc.
    + destruct (String.eqb (strip s) "") eqn:E; simpl.
      * apply IH.
      * rewrite IH. now rewrite <- app_assoc.
    + rewrite IH. now rewrite <- app_assoc.
    + rewrite IH. now rewrite <- app_assoc.
Qed.

(** What [extract] returns and logs, by the outcome of opening the bytes. *)
Lemma extract_spec (env : Env) (st : strategy) (b : bytes) (t : trace) :
  extract env st b t =
  match open_document env st b with
  | Ok pages =>
      (Ok (join nl (page_blocks pages 1)),
       (t ++ ELog Info ("Processing PDF with " ++ str_of_nat (List.length pages)
                          ++ " pages using " ++ strategy_name st)
          :: page_warnings st pages 1)%list)
  | Raise e =>
      (Ok "", (t ++ [ELog Error ("Error extracting text with "
                                   ++ strategy_name st ++ ": " ++ exn_msg e)])%list)
  end.
Proof.
  destruct st; simpl; unfold extract_text_pdfplumber, extract_text_pypdf2;
    run.
  - destruct (pdfplumber_open env b) as [pages|e]; [|reflexivity].
    rewrite (page_loop_spec Pdfplumber). simpl.
    now rewrite <- app_assoc.
  - destruct (PdfReader env b) as [pages|e]; [|reflexivity].
    rewrite (page_loop_spec Pypdf2). simpl.
    now rewrite <- app_assoc.
Qed.

Lemma extract_run (env : Env) (st : strategy) (b : bytes) (t : trace) :
  extract env st b t = (Ok (extracted env st b), (t ++ extract_log env st b)%list).
Proof.
  rewrite extract_spec. unfold extracted, extract_log.
  now destruct (open_document env st b).
Qed.

(** ** [download_pdf] *)

Lemma requests_app (t1 t2 : trace) :
  requests (t1 ++ t2)%list = (requests t1 ++ requests t2)%list.
Proof. apply filter_app. Qed.

Lemma requests_page_warnings st pages n : requests (page_warnings st pages n) = [].
Proof.
  revert n. induction pages as [|p rest IH]; intros n; simpl; [reflexivity|].
  destruct (page_warns st p); simpl; apply IH.
Qed.

Lemma requests_extract_log env st b : requests (extract_log env st b) = [].
Proof.
  unfold extract_log. destruct (open_document env st b); simpl; [|reflexivity].
  apply requests_page_warnings.
Qed.

Ltac requests_tac := rewrite !requests_app; simpl; now rewrite !app_nil_r.

(** When the f-string of its first line raises, [download_pdf] gives the
    download up at once. *)
Lemma download_pdf_format_raises (env : Env) (u : pyval) (timeout : nat)
      (t : trace) (e : exn) :
  py_format u = Raise e ->
  download_pdf env u timeout t
  = (Ok None,
     (t ++ [ELog Error ("Unexpected error downloading PDF: " ++ exn_msg e)])%list).
Proof.
  intros Ef. pose proof (py_format_raise u e Ef) as ->.
  unfold download_pdf. run. rewrite Ef. reflexivity.
Qed.

(** [download_pdf] never raises: the handler of [RequestException] quotes
    the URL again, which the first line has already quoted. *)
Lemma download_pdf_total (env : Env) (u : pyval) (timeout : nat) (t : trace) :
  exists d t1, download_pdf env u timeout t = (Ok d, t1).
Proof.
  destruct (py_format u) as [shown|e0] eqn:Ef.
  - unfold download_pdf, try_except.
    match goal with
    | |- context [match ?b t with _ => _ end] => destruct (b t) as [[d|e] t1]
    end.
    + eauto.
    + destruct (exn_cls e); run; rewrite ?Ef; eauto.
  - rewrite (download_pdf_format_raises env u timeout t e0 Ef). eauto.
Qed.

(** A URL whose scheme or host is missing: [None] and no request; two log
    records when the URL can be quoted. *)
Lemma download_pdf_invalid_url (env : Env) (u : pyval) (timeout : nat)
      (t : trace) (p : ParseResult) :
  urlparse env u = Ok p ->
  scheme p = "" \/ netloc p = "" ->
  exists t1,
    download_pdf env u timeout t = (Ok None, t1)
    /\ requests t1 = requests t
    /\ forall shown,
        py_format u = Ok shown ->
        t1 = (t ++ [ELog Info ("Downloading PDF from: " ++ shown);
                    ELog Error ("Invalid URL format: " ++ shown)])%list.
Proof.
  intros Hp Hs.
  destruct (py_format u) as [shown|e0] eqn:Ef.
  - unfold download_pdf. run. rewrite Ef, Hp.
    assert (String.eqb (scheme p) "" || String.eqb (netloc p) "" = true) as ->.
    { destruct Hs as [-> | ->]; simpl; [reflexivity|apply orb_true_r]. }
    eexists. split; [reflexivity|]. split; [requests_tac|].
    intros shown' [= <-]. now rewrite <- app_assoc.
  - rewrite (download_pdf_format_raises env u timeout t e0 Ef).
    eexists. split; [reflexivity|]. split; [requests_tac|].
    intros shown H. discriminate H.
Qed.

(** [urlparse] itself raising is caught the same way. *)
Lemma download_pdf_urlparse_raises (env : Env) (u : pyval) (timeout : nat)
      (t : trace) (e : exn) :
  urlparse env u = Raise e ->
  exists t1, download_pdf env u timeout t = (Ok None, t1)
             /\ requests t1 = requests t.
Proof.
  intros Hp.
  destruct (py_format u) as [shown|e0] eqn:Ef.
  - unfold download_pdf. run. rewrite Ef, Hp.
    destruct (exn_cls e); rewrite ?Ef; eexists; (split; [reflexivity|]);
      requests_tac.
  - rewrite (download_pdf_format_raises env u timeout t e0 Ef).
    eexists. split; [reflexivity|]. requests_tac.
Qed.

Lemma download_pdf_network_error (env : Env) (u : pyval) (timeout : nat)
      (t : trace) (p : ParseResult) (shown : string) :
  py_format u = Ok shown ->
  urlparse env u = Ok p ->
  scheme p <> "" -> netloc p <> "" ->
  fetch_fails env u timeout ->
  exists t1, download_pdf env u timeout t = (Ok None, t1)
             /\ requests t1 = (requests t ++ [EGet u timeout])%list.
Proof.
  intros Ef Hp Hs Hn Hf. unfold download_pdf, http_get, fetch_fails in *. run.
  rewrite Ef, Hp.
  apply String.eqb_neq in Hs, Hn. rewrite Hs, Hn. simpl.
  destruct (session_get env u timeout) as [r|e].
  - destruct (raise_for_status r) as [[]|e].
    + destruct (content r) as [b|e]; [contradiction|].
      destruct (contains "pdf" (lower (headers_get r "content-type" ""))).
      * destruct (exn_cls e); rewrite ?Ef; eexists; (split; [reflexivity|]);
          requests_tac.
      * unfold str_method. destruct u as [| |z|s]; run; rewrite ?Ef;
          try (eexists; (split; [reflexivity|]); requests_tac).
        destruct (endswith ".pdf" (lower s)); run;
          destruct (exn_cls e); eexists; (split; [reflexivity|]);
          requests_tac.
    + destruct (exn_cls e); rewrite ?Ef; eexists; (split; [reflexivity|]);
        requests_tac.
  - destruct (exn_cls e); rewrite ?Ef; eexists; (split; [reflexivity|]);
      requests_tac.
Qed.

(** At most one request, and only a GET for the URL given: no retry. *)
Lemma download_pdf_requests (env : Env) (u : pyval) (timeout : nat)
      (t t1 : trace) (d : option bytes) :
  download_pdf env u timeout t = (Ok d, t1) ->
  requests t1 = requests t
  \/ requests t1 = (requests t ++ [EGet u timeout])%list.
Proof.
  destruct (py_format u) as [shown|e0] eqn:Ef.
  2:{ rewrite (download_pdf_format_raises env u timeout t e0 Ef).
      intros [= <- <-]. left. requests_tac. }
  unfold download_pdf, http_get. run. rewrite Ef.
  destruct (urlparse env u) as [p|e].
  - destruct (String.eqb (scheme p) "" || String.eqb (netloc p) "").
    + intros [= <- <-]. left. requests_tac.
    + intros H. right. revert H.
      destruct (session_get env u timeout) as [r|e].
      * destruct (raise_for_status r) as [[]|e].
        -- destruct (contains "pdf" (lower (headers_get r "content-type" ""))).
           ++ destruct (content r) as [b|e]; [|destruct (exn_cls e)];
                rewrite ?Ef; intros [= <- <-]; requests_tac.
           ++ unfold str_method. destruct u as [| |z|s]; run; rewrite ?Ef;
                try (intros [= <- <-]; requests_tac).
              destruct (endswith ".pdf" (lower s)); run;
                (destruct (content r) as [b|e]; [|destruct (exn_cls e)]);
                intros [= <- <-]; requests_tac.
        -- destruct (exn_cls e); rewrite ?Ef; intros [= <- <-]; requests_tac.
      * destruct (exn_cls e); rewrite ?Ef; intros [= <- <-]; requests_tac.
  - destruct (exn_cls e); rewrite ?Ef; intros [= <- <-]; left; requests_tac.
Qed.

(** ** [process_pdf_from_url] and its envelope *)

(** What [process_pdf_from_url] returns and logs, given what [download_pdf]
    returned. *)
Lemma process_run (env : Env) (u m : pyval) (t t1 : trace) (d : option bytes) :
  download_pdf env u default_timeout t = (Ok d, t1) ->
  process_pdf_from_url env u m t =
  if not_bytes d
  then (Ok (failure_result u m "Failed to download PDF"), t1)
  else
    match m with
    | PyStr ms =>
        let txt := extracted env (dispatch ms) (bytes_of d) in
        let t2 := (t1 ++ extract_log env (dispatch ms) (bytes_of d))%list in
        if String.eqb (strip txt) ""
        then (Ok (failure_result u m "No text could be extracted from PDF"), t2)
        else (Ok (success_result u m txt),
              (t2 ++ [ELog Info ("Successfully processed PDF: "
                                   ++ str_of_nat (String.length txt)
                                   ++ " characters extracted")])%list)
    | _ =>
        let msg := "Unexpected error processing PDF: "
                     ++ exn_msg (attribute_error m "lower") in
        (Ok (failure_result u m msg), (t1 ++ [ELog Error msg])%list)
    end.
Proof.
  intros Hd. unfold process_pdf_from_url, try_except, bind at 1. rewrite Hd.
  destruct (not_bytes d); [reflexivity|].
  destruct m as [| |z|ms]; try reflexivity.
  unfold str_method, ret, bind at 1.
  assert (Hx : (if String.eqb (lower ms) "pdfplumber"
                then extract_text_pdfplumber env (bytes_of d)
                else extract_text_pypdf2 env (bytes_of d))
               = extract env (dispatch ms) (bytes_of d)).
  { unfold dispatch. now destruct (String.eqb (lower ms) "pdfplumber"). }
  rewrite Hx. unfold bind at 1. rewrite extract_run. cbv zeta.
  destruct (String.eqb (strip (extracted env (dispatch ms) (bytes_of d))) "");
    reflexivity.
Qed.

(** C1. Every result that [process_pdf_from_url] returns satisfies the
    envelope invariant, and the call always returns one: on a failed
    download, on an empty extraction, in the exception handler and on
    success alike, [success = true] comes with no error and a non-empty
    text, [success = false] with the empty text and an error string. *)
Theorem process_pdf_from_url_envelope (env : Env) (u m : pyval) (t : trace) :
  exists r t', process_pdf_from_url env u m t = (Ok r, t')
               /\ envelope_invariant r.
Proof.
  destruct (download_pdf_total env u default_timeout t) as (d & t1 & Hd).
  rewrite (process_run env u m t t1 d Hd).
  destruct (not_bytes d).
  - do 2 eexists. split; [reflexivity|].
    split; simpl; [discriminate|]. intros _. split; eauto.
  - destruct m as [| |z|ms];
      try (do 2 eexists; split; [reflexivity|];
           split; simpl; [discriminate|]; intros _; split; eauto).
    cbv zeta.
    destruct (String.eqb (strip (extracted env (dispatch ms) (bytes_of d))) "") eqn:E.
    + do 2 eexists. split; [reflexivity|].
      split; simpl; [discriminate|]. intros _. split; eauto.
    + do 2 eexists. split; [reflexivity|].
      split; simpl; [|discriminate]. intros _. split; [reflexivity|].
      apply strip_nonblank. now apply String.eqb_neq.
Qed.

(** A run issues at most one request, the GET of [download_pdf]: nothing
    is retried and the extractors touch no network. *)
Lemma process_requests (env : Env) (u m : pyval) (t t' : trace)
      (r : PipelineResult) :
  process_pdf_from_url env u m t = (Ok r, t') ->
  requests t' = requests t
  \/ requests t' = (requests t ++ [EGet u default_timeout])%list.
Proof.
  destruct (download_pdf_total env u default_timeout t) as (d & t1 & Hd).
  rewrite (process_run env u m t t1 d Hd).
  pose proof (download_pdf_requests env u default_timeout t t1 d Hd) as Hreq.
  destruct (not_bytes d); [now intros [= _ <-]|].
  destruct m as [| |z|ms]; cbv zeta;
    try (intros [= _ <-]; rewrite requests_app; simpl;
         now rewrite app_nil_r).
  destruct (String.eqb (strip (extracted env (dispatch ms) (bytes_of d))) "");
    intros [= _ <-]; rewrite ?requests_app, requests_extract_log; simpl;
    now rewrite ?app_nil_r.
Qed.

(** ** A page that raises *)

Lemma page_blocks_skip (pages : list Page) :
  forall (n k : nat) (texts : nat -> string),
    (forall j, j < List.length pages -> n + j <> k ->
               nth_error pages j = Some (Ok (Some (texts (n + j))))
               /\ strip (texts (n + j)) <> "") ->
    (forall j, j < List.length pages -> n + j = k ->
               exists e, nth_error pages j = Some (Raise e)) ->
    page_blocks pages n
    = flat_map (fun i => [page_marker i; texts i])
               (filter (fun i => negb (Nat.eqb i k)) (seq n (List.length pages))).
Proof.
  induction pages as [|p rest IH]; intros n k texts Hgood Hbad; [reflexivity|].
  simpl List.length. simpl seq. simpl filter.
  assert (IH' : page_blocks rest (S n)
                = flat_map (fun i => [page_marker i; texts i])
                    (filter (fun i => negb (Nat.eqb i k)) (seq (S n) (List.length rest)))).
  { apply IH.
    - intros j Hj Hk. specialize (Hgood (S j)). simpl in Hgood.
      replace (S n + j) with (n + S j) by lia. apply Hgood; lia.
    - intros j Hj Hk. apply (Hbad (S j)); simpl; lia. }
  destruct (Nat.eqb n k) eqn:E; simpl.
  - apply Nat.eqb_eq in E.
    destruct (Hbad 0) as [e He]; [simpl; lia|lia|].
    simpl in He. injection He as ->. simpl. exact IH'.
  - apply Nat.eqb_neq in E.
    destruct (Hgood 0) as [Hp Hs]; [simpl; lia|lia|].
    simpl in Hp. injection Hp as ->. rewrite Nat.add_0_r in Hs.
    unfold page_emits. rewrite Nat.add_0_r.
    apply String.eqb_neq in Hs. rewrite Hs. simpl. now rewrite IH'.
Qed.

Lemma page_warnings_skip (st : strategy) (pages : list Page) :
  forall (n k : nat) (e : exn) (texts : nat -> string),
    (forall j, j < List.length pages -> n + j <> k ->
               nth_error pages j = Some (Ok (Some (texts (n + j))))) ->
    (forall j, j < List.length pages -> n + j = k ->
               nth_error pages j = Some (Raise e)) ->
    page_warnings st pages n
    = if (n <=? k)%nat && (k <? n + List.length pages)%nat
      then [ELog Warning ("Error extracting text from page " ++ str_of_nat k
                            ++ ": " ++ exn_msg e)]
      else [].
Proof.
  induction pages as [|p rest IH]; intros n k e texts Hgood Hbad.
  - simpl. destruct (n <=? k)%nat eqn:E1; [|reflexivity].
    destruct (k <? n + 0)%nat eqn:E2; [|reflexivity].
    apply Nat.leb_le in E1. apply Nat.ltb_lt in E2. lia.
  - simpl List.length. simpl page_warnings.
    assert (IH' := IH (S n) k e texts).
    rewrite IH'.
    + destruct (Nat.eq_dec n k) as [->|Hne].
      * pose proof (Hbad 0 ltac:(simpl; lia) ltac:(lia)) as H0.
        simpl in H0. injection H0 as ->. simpl page_warns. cbv iota.
        assert ((S k <=? k)%nat = false) as -> by (apply Nat.leb_gt; lia).
        assert ((k <=? k)%nat = true) as -> by (apply Nat.leb_le; lia).
        assert ((k <? k + S (List.length rest))%nat = true) as ->
            by (apply Nat.ltb_lt; lia).
        reflexivity.
      * pose proof (Hgood 0 ltac:(simpl; lia) ltac:(lia)) as H0.
        simpl in H0. injection H0 as ->. simpl page_warns. cbv iota.
        destruct (Nat.le_gt_cases (S n) k) as [Hle|Hgt].
        -- assert ((S n <=? k)%nat = true) as -> by (apply Nat.leb_le; lia).
           assert ((n <=? k)%nat = true) as -> by (apply Nat.leb_le; lia).
           now replace (n + S (List.length rest)) with (S n + List.length rest) by lia.
        -- assert ((S n <=? k)%nat = false) as -> by (apply Nat.leb_gt; lia).
           assert ((n <=? k)%nat = false) as -> by (apply Nat.leb_gt; lia).
           reflexivity.
    + intros j Hj Hk. replace (S n + j) with (n + S j) by lia.
      apply (Hgood (S j)); simpl; lia.
    + intros j Hj Hk. apply (Hbad (S j)); simpl; lia.
Qed.

(** C2, as stated, fails: a page whose text is non-empty but blank (a single
    space) contributes no marker.  Here page 2 raises and page 1 yields the
    text [" "]; the text returned is empty, not marker 1 and the space. *)
Lemma skip_failing_page_nonempty_counterexample :
  ~ (forall (env : Env) (st : strategy) (b : bytes) (pages : list Page)
            (k : nat) (e : exn) (texts : nat -> string) (t : trace),
        open_document env st b = Ok pages ->
        1 <= k <= List.length pages ->
        nth_error pages (k - 1) = Some (Raise e) ->
        (forall i, 1 <= i <= List.length pages -> i <> k ->
                   nth_error pages (i - 1) = Some (Ok (Some (texts i)))
                   /\ texts i <> "") ->
        fst (extract env st b t)
        = Ok (text_without (List.length pages) k texts)).
Proof.
  intros H.
  specialize (H (env_of example_body (Ok [Ok (Some " "); corrupt_page]))
                Pypdf2 example_body [Ok (Some " "); corrupt_page] 2
                (Exn OtherException "corrupt page") (fun _ => " ") []).
  assert (Hx : fst (extract
                      (env_of example_body (Ok [Ok (Some " "); corrupt_page]))
                      Pypdf2 example_body []) = Ok "") by reflexivity.
  rewrite Hx in H.
  assert (Hc : Ok "" = Ok (text_without 2 2 (fun _ => " ")) -> False)
    by (vm_compute; discriminate).
  apply Hc. apply H.
  - reflexivity.
  - simpl; lia.
  - reflexivity.
  - intros i Hi Hk. simpl in Hi.
    assert (i = 1) as -> by lia. split; [reflexivity|discriminate].
Qed.

(** C2 (amended). In a document of N pages where [extract_text] raises on
    page k and every other page yields text that is not blank (not empty
    and not whitespace only), either strategy returns the markers and texts
    of all pages but k, in ascending page order, with nothing for page k;
    it logs one warning, for page k, and does not raise; the text returned
    does not depend on the run. *)
Theorem extract_skips_failing_page
        (env : Env) (st : strategy) (b : bytes) (pages : list Page)
        (k : nat) (e : exn) (texts : nat -> string) :
  open_document env st b = Ok pages ->
  1 <= k <= List.length pages ->
  nth_error pages (k - 1) = Some (Raise e) ->
  (forall i, 1 <= i <= List.length pages -> i <> k ->
             nth_error pages (i - 1) = Some (Ok (Some (texts i)))
             /\ strip (texts i) <> "") ->
  (forall t,
      extract env st b t
      = (Ok (text_without (List.length pages) k texts),
         (t ++ [ELog Info ("Processing PDF with "
                             ++ str_of_nat (List.length pages)
                             ++ " pages using " ++ strategy_name st);
                ELog Warning ("Error extracting text from page "
                                ++ str_of_nat k ++ ": " ++ exn_msg e)])%list))
  /\ (forall t1 t2, fst (extract env st b t1) = fst (extract env st b t2)).
Proof.
  intros Hopen Hk Hbad Hgood.
  assert (Hrun : forall t,
      extract env st b t
      = (Ok (text_without (List.length pages) k texts),
         (t ++ [ELog Info ("Processing PDF with "
                             ++ str_of_nat (List.length pages)
                             ++ " pages using " ++ strategy_name st);
                ELog Warning ("Error extracting text from page "
                                ++ str_of_nat k ++ ": " ++ exn_msg e)])%list)).
  { intros t. rewrite extract_spec, Hopen. unfold text_without.
    rewrite (page_blocks_skip pages 1 k texts).
    - rewrite (page_warnings_skip st pages 1 k e texts).
      + assert ((1 <=? k)%nat = true) as -> by (apply Nat.leb_le; lia).
        assert ((k <? 1 + List.length pages)%nat = true) as ->
            by (apply Nat.ltb_lt; lia).
        reflexivity.
      + intros j Hj Hne.
        destruct (Hgood (1 + j)) as [Hp _]; [lia|lia|].
        now replace (1 + j - 1) with j in Hp by lia.
      + intros j Hj <-. now replace (1 + j - 1) with j in Hbad by lia.
    - intros j Hj Hne.
      specialize (Hgood (1 + j)).
      replace (1 + j - 1) with j in Hgood by lia. apply Hgood; lia.
    - intros j Hj <-. exists e.
      now replace (1 + j - 1) with j in Hbad by lia. }
  split; [exact Hrun|].
  intros t1 t2. now rewrite (Hrun t1), (Hrun t2).
Qed.

Lemma extract_skips_failing_page_witness :
  (forall t,
      extract (env_of example_body (Ok three_pages)) Pdfplumber example_body t
      = (Ok (text_without 3 2 three_texts),
         (t ++ [ELog Info ("Processing PDF with " ++ str_of_nat 3
                             ++ " pages using " ++ strategy_name Pdfplumber);
                ELog Warning ("Error extracting text from page "
                                ++ str_of_nat 2 ++ ": " ++ "corrupt page")])%list))
  /\ (forall t1 t2,
         fst (extract (env_of example_body (Ok three_pages)) Pdfplumber
                      example_body t1)
         = fst (extract (env_of example_body (Ok three_pages)) Pdfplumber
                        example_body t2)).
Proof.
  apply (extract_skips_failing_page
           (env_of example_body (Ok three_pages)) Pdfplumber example_body
           three_pages 2 (Exn OtherException "corrupt page") three_texts).
  - reflexivity.
  - simpl; lia.
  - reflexivity.
  - intros i Hi Hne. simpl in Hi.
    assert (i = 1 \/ i = 3) as [-> | ->] by lia;
      (split; [reflexivity | vm_compute; discriminate]).
Defined.

Example text_without_3_2 :
  text_without 3 2 three_texts
  = nl ++ "--- Page 1 ---" ++ nl ++ nl ++ "alpha" ++ nl
       ++ nl ++ "--- Page 3 ---" ++ nl ++ nl ++ "gamma".
Proof. reflexivity. Qed.

(** ** Pages processed *)

(** C3 fails on the code. A one-page document whose text contains
    ["--- Page"]: one page contributes a marker and the text returned holds
    one marker, but [pages_processed], the number of occurrences of
    ["--- Page"], is 2. *)
Theorem pages_processed_overcounts :
  exists r t',
    process_pdf_from_url (env_of example_body (Ok page_with_dashes))
                         (PyStr "https://example.org/a.pdf") (PyStr "pypdf2") []
    = (Ok r, t')
    /\ success r = true
    /\ text r = page_marker 1 ++ nl ++ "see --- Page break"
    /\ List.length (pages_emitted page_with_dashes 1) = 1
    /\ markers_in (text r) = 1
    /\ pages_processed (metadata r) = 2.
Proof.
  do 2 eexists. split; [vm_compute; reflexivity|].
  repeat split; reflexivity.
Qed.

(** ** Computations only extend the trace *)

Lemma uniform_ret {A} (a : A) : uniform (ret a).
Proof. exists (Ok a), []. intros t. unfold ret. now rewrite app_nil_r. Qed.

Lemma uniform_raise {A} (e : exn) : uniform (@raise A e).
Proof. exists (Raise e), []. intros t. unfold raise. now rewrite app_nil_r. Qed.

Lemma uniform_call {A} (r : Result A) : uniform (call r).
Proof. exists r, []. intros t. unfold call. now rewrite app_nil_r. Qed.

Lemma uniform_emit (ev : event) : uniform (emit ev).
Proof. exists (Ok tt), [ev]. reflexivity. Qed.

Lemma uniform_log (lvl : level) (msg : string) : uniform (log lvl msg).
Proof. apply uniform_emit. Qed.

Lemma uniform_bind {A B} (m : M A) (f : A -> M B) :
  uniform m -> (forall a, uniform (f a)) -> uniform (bind m f).
Proof.
  intros (r & l & Hm) Hf. destruct r as [a|e].
  - destruct (Hf a) as (r' & l' & Hfa). exists r', (l ++ l')%list.
    intros t. unfold bind. rewrite Hm, Hfa. now rewrite app_assoc.
  - exists (Raise e), l. intros t. unfold bind. now rewrite Hm.
Qed.

Lemma uniform_try_except {A} (body : M A) (handler : exn -> M A) :
  uniform body -> (forall e, uniform (handler e)) ->
  uniform (try_except body handler).
Proof.
  intros (r & l & Hm) Hh. destruct r as [a|e].
  - exists (Ok a), l. intros t. unfold try_except. now rewrite Hm.
  - destruct (Hh e) as (r' & l' & Hhe). exists r', (l ++ l')%list.
    intros t. unfold try_except. rewrite Hm, Hhe. now rewrite app_assoc.
Qed.

Lemma uniform_value {A} (m : M A) (t1 t2 : trace) :
  uniform m -> fst (m t1) = fst (m t2).
Proof. intros (r & l & Hm). now rewrite !Hm. Qed.

Ltac uniform_step :=
  match goal with
  | |- uniform (ret _) => apply uniform_ret
  | |- uniform (raise _) => apply uniform_raise
  | |- uniform (call _) => apply uniform_call
  | |- uniform (emit _) => apply uniform_emit
  | |- uniform (log _ _) => apply uniform_log
  | |- uniform (bind _ _) => apply uniform_bind; [|intros ?]
  | |- uniform (try_except _ _) => apply uniform_try_except; [|intros ?]
  | |- uniform (if ?c then _ else _) => destruct c
  | |- uniform (match ?x with _ => _ end) => destruct x
  | |- uniform (let _ := _ in _) => cbv zeta
  end.

Ltac uniform_tac := repeat uniform_step.

Lemma uniform_download_pdf env u timeout : uniform (download_pdf env u timeout).
Proof.
  unfold download_pdf, http_get, str_method, fstring. uniform_tac.
Qed.

Lemma uniform_extract env st b : uniform (extract env st b).
Proof.
  exists (Ok (extracted env st b)), (extract_log env st b).
  intros t. apply extract_run.
Qed.

Lemma uniform_process env u m : uniform (process_pdf_from_url env u m).
Proof.
  unfold process_pdf_from_url, str_method.
  apply uniform_try_except; [|intros ?; uniform_tac].
  apply uniform_bind; [apply uniform_download_pdf|intros d].
  destruct (not_bytes d); [apply uniform_ret|].
  apply uniform_bind; [uniform_tac|intros lowered].
  apply uniform_bind.
  - destruct (String.eqb lowered "pdfplumber").
    + apply (uniform_extract env Pdfplumber).
    + apply (uniform_extract env Pypdf2).
  - intros txt. uniform_tac.
Qed.

Lemma uniform_download_and_parse env u m :
  uniform (download_and_parse_pdf env u m).
Proof.
  unfold download_and_parse_pdf, fstring.
  apply uniform_try_except; [|intros ?; uniform_tac].
  apply uniform_bind; [uniform_tac|intros shown].
  apply uniform_bind; [uniform_tac|intros _].
  destruct (negb (truthy u) || negb (isinstance_str u)); [apply uniform_ret|].
  apply uniform_bind; [uniform_tac|intros m'].
  apply uniform_bind; [apply uniform_process|intros r]. uniform_tac.
Qed.

(** ** Method selection *)

(** What [download_and_parse_pdf] returns and logs, given what
    [process_pdf_from_url] returns. *)
Lemma download_and_parse_run (env : Env) (u m : pyval) (t : trace) :
  download_and_parse_pdf env u m t =
  match py_format u with
  | Raise e =>
      let msg := "Unexpected error in download_and_parse_pdf: " ++ exn_msg e in
      (Ok msg, (t ++ [ELog Error msg])%list)
  | Ok shown =>
      let t0 := (t ++ [ELog Info ("Processing PDF from URL: " ++ shown)])%list in
      if negb (truthy u) || negb (isinstance_str u)
      then (Ok "Error: Invalid URL provided", t0)
      else
        let m' := if recognized m then m else PyStr "pdfplumber" in
        let t0' :=
          if recognized m then t0
          else (t0 ++ [ELog Warning
                         "Invalid extraction method, using default: pdfplumber"])%list in
        match process_pdf_from_url env u m' t0' with
        | (Ok r, t1) =>
            if success r then (Ok (format_report r), t1)
            else
              let msg := "Failed to process PDF: " ++ str_of_error (error r) in
              (Ok msg, (t1 ++ [ELog Error msg])%list)
        | (Raise e, t1) =>
            let msg :=
              "Unexpected error in download_and_parse_pdf: " ++ exn_msg e in
            (Ok msg, (t1 ++ [ELog Error msg])%list)
        end
  end.
Proof.
  unfold download_and_parse_pdf, recognized. run.
  destruct (py_format u) as [shown|e0]; [|reflexivity].
  destruct (negb (truthy u) || negb (isinstance_str u)); [reflexivity|].
  destruct (eq_str m "pdfplumber" || eq_str m "pypdf2"); simpl.
  - destruct (process_pdf_from_url env u m _) as [[r|e] t1]; [|reflexivity].
    now destruct (success r).
  - destruct (process_pdf_from_url env u (PyStr "pdfplumber") _) as [[r|e] t1];
      [|reflexivity].
    now destruct (success r).
Qed.





(** ** Failed downloads *)

Lemma raise_for_status_error (r : Response) :
  (400 <= status_code r < 600)%Z -> exists e, raise_for_status r = Raise e.
Proof.
  intros H. unfold raise_for_status.
  destruct ((400 <=? status_code r) && (status_code r <? 500))%Z eqn:E4;
    [eauto|].
  destruct ((500 <=? status_code r) && (status_code r <? 600))%Z eqn:E5;
    [eauto|].
  exfalso. apply andb_false_iff in E4, E5.
  destruct E4 as [E4|E4], E5 as [E5|E5];
    try apply Z.leb_gt in E4; try apply Z.ltb_ge in E4;
    try apply Z.leb_gt in E5; try apply Z.ltb_ge in E5; lia.
Qed.

Lemma raise_for_status_passes (r : Response) :
  ~ (400 <= status_code r < 600)%Z -> raise_for_status r = Ok tt.
Proof.
  intros H. unfold raise_for_status.
  destruct ((400 <=? status_code r) && (status_code r <? 500))%Z eqn:E4.
  { exfalso. apply andb_true_iff in E4. destruct E4 as [E4 E4'].
    apply Z.leb_le in E4. apply Z.ltb_lt in E4'. lia. }
  destruct ((500 <=? status_code r) && (status_code r <? 600))%Z eqn:E5;
    [|reflexivity].
  exfalso. apply andb_true_iff in E5. destruct E5 as [E5 E5'].
  apply Z.leb_le in E5. apply Z.ltb_lt in E5'. lia.
Qed.

Lemma network_error_fetch_fails (env : Env) (u : pyval) (timeout : nat) :
  network_error env u timeout -> fetch_fails env u timeout.
Proof.
  unfold network_error, fetch_fails.
  intros [(e & ->) | (r & -> & H)]; [exact I|].
  destruct (raise_for_status r) as [[]|e] eqn:Er; [|exact I].
  destruct H as [H | (e & ->)]; [|exact I].
  destruct (raise_for_status_error r H) as (e & He). congruence.
Qed.

(** C5, as stated, fails twice.  From the envelope to the fetch: on a
    response with an empty body [download_pdf] succeeds, returning the
    empty byte string, and [process_pdf_from_url] still returns the
    failed-download envelope.  And a status outside 2xx is not by itself a
    failed fetch: [raise_for_status] lets a 300 answer pass, and its body
    is returned. *)
Lemma failed_download_iff_counterexample :
  ~ (forall (env : Env) (u m : pyval) (t t1 : trace) (d : option bytes),
        download_pdf env u default_timeout t = (Ok d, t1) ->
        (fst (process_pdf_from_url env u m t)
         = Ok (failure_result u m "Failed to download PDF")
         <-> d = None))
  /\ ~ (forall (env : Env) (us : string) (t : trace) (p : ParseResult)
               (r : Response),
           urlparse env (PyStr us) = Ok p ->
           scheme p <> "" -> netloc p <> "" ->
           session_get env (PyStr us) default_timeout = Ok r ->
           ~ (200 <= status_code r < 300)%Z ->
           fst (download_pdf env (PyStr us) default_timeout t) = Ok None).
Proof.
  split.
  - intros H.
    specialize (H empty_body_env (PyStr "https://example.org/a.pdf")
                  (PyStr "pdfplumber") []
                  [ELog Info "Downloading PDF from: https://example.org/a.pdf";
                   EGet (PyStr "https://example.org/a.pdf") 30;
                   ELog Info "Successfully downloaded PDF (0 bytes)"]
                  (Some []) eq_refl).
    destruct H as [H _].
    discriminate (H eq_refl).
  - intros H.
    specialize (H (status_env 300 "Multiple Choices" example_body)
                  "https://example.org/a.pdf" []
                  {| scheme := "https"; netloc := "example.org" |}
                  (status_response 300 "Multiple Choices" example_body)
                  eq_refl).
    assert (Hd : fst (download_pdf
                        (status_env 300 "Multiple Choices" example_body)
                        (PyStr "https://example.org/a.pdf") default_timeout [])
                 = Ok (Some example_body)) by reflexivity.
    rewrite Hd in H.
    assert (Ok (Some example_body) = Ok None -> False) by discriminate.
    apply H0, H; try discriminate; try reflexivity.
    simpl. lia.
Qed.

Lemma not_bytes_true (d : option bytes) :
  not_bytes d = true <-> d = None \/ d = Some [].
Proof.
  destruct d as [[|b bs]|]; simpl; split; intros H;
    try reflexivity; try discriminate; auto;
    destruct H; discriminate.
Qed.

(** C5 (amended). [process_pdf_from_url] returns the failed-download
    envelope exactly when [download_pdf] returns [None] or an empty body.
    When the URL parses without a scheme or without a host, [download_pdf]
    returns [None] and issues no request.  When the URL is well formed, the
    log line can quote it (as it can every string), and the GET runs into a
    network-layer error (the request raises, as for a connection error or a
    timeout, the answer has a 4xx or 5xx status, or reading its body
    raises), [download_pdf] returns [None] after that one GET, which is not
    retried. *)
Theorem failed_download_envelope
        (env : Env) (u m : pyval) (t t1 : trace) (d : option bytes) :
  download_pdf env u default_timeout t = (Ok d, t1) ->
  (fst (process_pdf_from_url env u m t)
   = Ok (failure_result u m "Failed to download PDF")
   <-> d = None \/ d = Some [])
  /\ (forall p, urlparse env u = Ok p -> scheme p = "" \/ netloc p = "" ->
                d = None /\ requests t1 = requests t)
  /\ (forall p shown,
         py_format u = Ok shown ->
         urlparse env u = Ok p -> scheme p <> "" -> netloc p <> "" ->
         network_error env u default_timeout ->
         d = None
         /\ requests t1 = (requests t ++ [EGet u default_timeout])%list).
Proof.
  intros Hd. split; [|split].
  - rewrite <- not_bytes_true.
    rewrite (process_run env u m t t1 d Hd).
    destruct (not_bytes d); [simpl; tauto|].
    split; [|discriminate]. intros H. exfalso.
    destruct m as [| |z|ms]; simpl in H;
      try (injection H as H; discriminate).
    revert H. cbv zeta.
    destruct (String.eqb (strip (extracted env (dispatch ms) (bytes_of d))) "");
      simpl; intros H; injection H as H; discriminate.
  - intros p Hp Hs.
    destruct (download_pdf_invalid_url env u default_timeout t p Hp Hs)
      as (t1' & Hd' & Hr & _).
    rewrite Hd in Hd'. injection Hd' as -> ->. now split.
  - intros p shown Ef Hp Hs Hn Hf.
    apply network_error_fetch_fails in Hf.
    destruct (download_pdf_network_error env u default_timeout t p shown
                Ef Hp Hs Hn Hf) as (t1' & Hd' & Hr).
    rewrite Hd in Hd'. injection Hd' as -> ->. now split.
Qed.

Lemma failed_download_envelope_witness :
  ((fst (process_pdf_from_url offline_env (PyStr "") (PyStr "pdfplumber") [])
    = Ok (failure_result (PyStr "") (PyStr "pdfplumber")
            "Failed to download PDF")
    <-> @None bytes = None \/ @None bytes = Some [])
   /\ (@None bytes = None
       /\ requests [ELog Info "Downloading PDF from: ";
                    ELog Error "Invalid URL format: "] = requests []))
  /\ (@None bytes = None
      /\ requests
           [ELog Info "Downloading PDF from: https://example.org/a.pdf";
            EGet (PyStr "https://example.org/a.pdf") 30;
            ELog Error
              "Error downloading PDF from https://example.org/a.pdf: 404 Client Error: Not Found for url: https://example.org/a.pdf"]
         = (requests []
              ++ [EGet (PyStr "https://example.org/a.pdf") default_timeout])%list)
  /\ (@None bytes = None
      /\ requests
           [ELog Info "Downloading PDF from: https://example.org/a.pdf";
            EGet (PyStr "https://example.org/a.pdf") 30;
            ELog Error
              "Error downloading PDF from https://example.org/a.pdf: connection refused"]
         = (requests []
              ++ [EGet (PyStr "https://example.org/a.pdf") default_timeout])%list).
Proof.
  split; [|split].
  - destruct (failed_download_envelope offline_env (PyStr "")
                (PyStr "pdfplumber") []
                [ELog Info "Downloading PDF from: ";
                 ELog Error "Invalid URL format: "]
                None eq_refl) as (Hiff & Hinvalid & _).
    split; [exact Hiff|].
    exact (Hinvalid {| scheme := ""; netloc := "" |} eq_refl
                    (or_introl eq_refl)).
  - destruct (failed_download_envelope
                (status_env 404 "Not Found" example_body)
                (PyStr "https://example.org/a.pdf") (PyStr "pdfplumber") []
                [ELog Info "Downloading PDF from: https://example.org/a.pdf";
                 EGet (PyStr "https://example.org/a.pdf") 30;
                 ELog Error
                   "Error downloading PDF from https://example.org/a.pdf: 404 Client Error: Not Found for url: https://example.org/a.pdf"]
                None eq_refl) as (_ & _ & Hnet).
    apply (Hnet {| scheme := "https"; netloc := "example.org" |}
                "https://example.org/a.pdf" eq_refl eq_refl);
      [discriminate|discriminate|].
    right. exists (status_response 404 "Not Found" example_body).
    split; [reflexivity|]. left. simpl. lia.
  - destruct (failed_download_envelope offline_env
                (PyStr "https://example.org/a.pdf") (PyStr "pdfplumber") []
                [ELog Info "Downloading PDF from: https://example.org/a.pdf";
                 EGet (PyStr "https://example.org/a.pdf") 30;
                 ELog Error
                   "Error downloading PDF from https://example.org/a.pdf: connection refused"]
                None eq_refl) as (_ & _ & Hnet).
    apply (Hnet {| scheme := "https"; netloc := "example.org" |}
                "https://example.org/a.pdf" eq_refl eq_refl);
      [discriminate|discriminate|].
    left. eexists. reflexivity.
Defined.

Example network_error_one_request :
  exists t1,
    download_pdf offline_env (PyStr "https://example.org/a.pdf") default_timeout []
    = (Ok None, t1)
    /\ requests t1 = [EGet (PyStr "https://example.org/a.pdf") 30].
Proof. eexists. split; reflexivity. Qed.

(** ** Malformed documents *)

(** C6, as stated, fails on the empty byte sequence: it is not a PDF, and
    [process_pdf_from_url] reports a failed download for it, without
    calling the extractor. *)
Lemma malformed_document_counterexample :
  ~ (forall (env : Env) (u : pyval) (ms : string) (t t1 : trace)
            (b : bytes) (e : exn),
        download_pdf env u default_timeout t = (Ok (Some b), t1) ->
        open_document env (dispatch ms) b = Raise e ->
        fst (extract env (dispatch ms) b t1) = Ok ""
        /\ exists r, fst (process_pdf_from_url env u (PyStr ms) t) = Ok r
                     /\ success r = false
                     /\ error r = Some "No text could be extracted from PDF").
Proof.
  intros H.
  destruct (H empty_body_env (PyStr "https://example.org/a.pdf") "pdfplumber" []
              [ELog Info "Downloading PDF from: https://example.org/a.pdf";
               EGet (PyStr "https://example.org/a.pdf") 30;
               ELog Info "Successfully downloaded PDF (0 bytes)"]
              [] (Exn OtherException "EOF marker not found")
              eq_refl eq_refl) as (_ & r & Hr & _ & He).
  vm_compute in Hr. injection Hr as <-. discriminate He.
Qed.

(** C6 (amended). When the library of a strategy cannot open a byte
    sequence, whatever the sequence, the empty one included, [extract] does
    not raise: it returns the empty text, which holds no page marker.  When
    that byte sequence is not empty and is what [download_pdf] returned,
    [process_pdf_from_url] returns the failure result with the error
    ["No text could be extracted from PDF"], zero pages processed. *)
Theorem malformed_document
        (env : Env) (st : strategy) (b : bytes) (e : exn) :
  open_document env st b = Raise e ->
  (forall t, exists t', extract env st b t = (Ok "", t'))
  /\ count "--- Page" "" = 0
  /\ (forall (u : pyval) (ms : string) (t t1 : trace),
         dispatch ms = st ->
         b <> [] ->
         download_pdf env u default_timeout t = (Ok (Some b), t1) ->
         fst (process_pdf_from_url env u (PyStr ms) t)
         = Ok (failure_result u (PyStr ms)
                 "No text could be extracted from PDF")).
Proof.
  intros Ho. split; [|split].
  - intros t. rewrite extract_spec, Ho. eauto.
  - reflexivity.
  - intros u ms t t1 <- Hb Hd.
    rewrite (process_run env u (PyStr ms) t t1 (Some b) Hd).
    destruct b as [|x bs]; [contradiction|]. simpl not_bytes. cbv iota zeta.
    unfold extracted. simpl bytes_of. rewrite Ho. reflexivity.
Qed.

Lemma malformed_document_witness :
  ((forall t, exists t',
        extract garbage_env Pypdf2 example_body t = (Ok "", t'))
   /\ count "--- Page" "" = 0
   /\ fst (process_pdf_from_url garbage_env (PyStr "https://example.org/a.pdf")
             (PyStr "pypdf2") [])
      = Ok (failure_result (PyStr "https://example.org/a.pdf") (PyStr "pypdf2")
              "No text could be extracted from PDF"))
  /\ (forall t, exists t', extract empty_body_env Pdfplumber [] t = (Ok "", t')).
Proof.
  split.
  - destruct (malformed_document garbage_env Pypdf2 example_body
                (Exn OtherException "EOF marker not found") eq_refl)
      as (Hx & Hc & Hrun).
    split; [exact Hx|]. split; [exact Hc|].
    apply (Hrun (PyStr "https://example.org/a.pdf") "pypdf2" []
                [ELog Info "Downloading PDF from: https://example.org/a.pdf";
                 EGet (PyStr "https://example.org/a.pdf") 30;
                 ELog Info "Successfully downloaded PDF (4 bytes)"]);
      [reflexivity|discriminate|reflexivity].
  - destruct (malformed_document empty_body_env Pdfplumber []
                (Exn OtherException "EOF marker not found") eq_refl)
      as (Hx & _). exact Hx.
Defined.

(** ** The strings [download_and_parse_pdf] returns *)


Lemma normalized_method_is_str (m : pyval) :
  exists ms, (if recognized m then m else PyStr "pdfplumber") = PyStr ms.
Proof.
  destruct (recognized m) eqn:E; [|eauto].
  destruct m as [| |z|ms]; try discriminate E. eauto.
Qed.


Lemma py_format_huge_int : py_format huge_int = Raise int_str_error.
Proof. vm_compute. reflexivity. Qed.

(** The outer handler at work: the f-string of the first line raises for an
    [int] of 5001 digits. *)
Example unexpected_fault_huge_int (env : Env) (m : pyval) (t : trace) :
  fst (download_and_parse_pdf env huge_int m t)
  = Ok (unexpected_prefix ++ exn_msg int_str_error).
Proof.
  rewrite download_and_parse_run, py_format_huge_int. reflexivity.
Qed.

Lemma py_format_small (u : pyval) :
  (forall z, u = PyInt z -> (Z.abs z < 10 ^ max_str_digits)%Z) ->
  py_format u = Ok (py_str u).
Proof.
  intros H. destruct u as [| |z|s]; try reflexivity.
  unfold py_format, int_too_long.
  specialize (H z eq_refl).
  destruct (10 ^ max_str_digits <=? Z.abs z)%Z eqn:E; [|reflexivity].
  apply Z.leb_le in E. lia.
Qed.

(** C10, as stated, fails for a value that is not a string and that the
    first line of the body cannot quote: for an [int] of 5001 digits the
    f-string raises before the URL is checked, and the outer handler
    returns its own string. *)
Lemma invalid_url_message_counterexample :
  ~ (forall (env : Env) (u m : pyval) (t : trace),
        u = PyStr "" \/ (forall s, u <> PyStr s) ->
        fst (download_and_parse_pdf env u m t)
        = Ok "Error: Invalid URL provided").
Proof.
  intros H.
  specialize (H two_library_env huge_int (PyStr "pdfplumber") []).
  rewrite download_and_parse_run, py_format_huge_int in H.
  assert (Hu : huge_int = PyStr "" \/ (forall s, huge_int <> PyStr s))
    by (right; intros s; discriminate).
  specialize (H Hu). discriminate H.
Qed.

(** C10 (amended). Called with the empty string, or with a value that is
    not a string and that the log line can quote ([None], a [bool], an
    [int] of at most 4300 digits), [download_and_parse_pdf] returns exactly
    ["Error: Invalid URL provided"], having written one log record and
    called neither the fetcher nor the extractor; the string has neither
    the ["Failed to process PDF: "] nor the ["Unexpected error in
    download_and_parse_pdf: "] shape. *)
Theorem invalid_url_message (env : Env) (u m : pyval) (t : trace) :
  u = PyStr "" \/ (forall s, u <> PyStr s) ->
  (forall z, u = PyInt z -> (Z.abs z < 10 ^ max_str_digits)%Z) ->
  download_and_parse_pdf env u m t
  = (Ok "Error: Invalid URL provided",
     (t ++ [ELog Info ("Processing PDF from URL: " ++ py_str u)])%list)
  /\ startswith failed_prefix "Error: Invalid URL provided" = false
  /\ startswith unexpected_prefix "Error: Invalid URL provided" = false.
Proof.
  intros Hu Hz. split; [|split; reflexivity].
  rewrite download_and_parse_run, (py_format_small u Hz). cbv zeta.
  assert (negb (truthy u) || negb (isinstance_str u) = true) as ->.
  { destruct Hu as [-> | Hu]; [reflexivity|].
    destruct u as [| |z|s]; simpl; try reflexivity; try apply orb_true_r.
    now destruct (Hu s). }
  reflexivity.
Qed.

Lemma invalid_url_message_witness :
  download_and_parse_pdf two_library_env (PyStr "") (PyStr "pdfplumber") []
  = (Ok "Error: Invalid URL provided",
     ([] ++ [ELog Info ("Processing PDF from URL: " ++ py_str (PyStr ""))])%list)
  /\ startswith failed_prefix "Error: Invalid URL provided" = false
  /\ startswith unexpected_prefix "Error: Invalid URL provided" = false.
Proof.
  apply (invalid_url_message two_library_env (PyStr "") (PyStr "pdfplumber") []).
  - left. reflexivity.
  - intros z H. discriminate H.
Defined.

Example invalid_url_none :
  fst (download_and_parse_pdf two_library_env PyNone (PyStr "pdfplumber") [])
  = Ok "Error: Invalid URL provided".
Proof. reflexivity. Qed.

(** ** The metadata probe *)

(** C9, as stated, fails for a status outside 2xx that is not an error
    status: a HEAD request does not follow redirects, [raise_for_status]
    lets a 301 answer pass, and the probe record is returned, not the
    record of [error] and [url]. *)
Lemma probe_non_2xx_counterexample :
  ~ (forall (env : Env) (u : pyval) (t : trace) (r : Response),
        session_head env u 10 = Ok r ->
        ~ (200 <= status_code r < 300)%Z ->
        exists msg,
          fst (get_pdf_metadata env u t)
          = Ok [ ("error", PyStr msg); ("url", u) ]).
Proof.
  intros H.
  destruct (H redirect_env (PyStr "https://example.org/a.pdf") []
              bare_response eq_refl) as (msg & Hm).
  - simpl. lia.
  - discriminate Hm.
Qed.

Lemma raise_for_status_cases (r : Response) :
  raise_for_status r
  = if is_error_status (status_code r)
    then Raise (Exn RequestException (http_error_message r))
    else Ok tt.
Proof.
  unfold raise_for_status, is_error_status, http_error_message.
  destruct (400 <=? status_code r)%Z eqn:E4;
    destruct (status_code r <? 500)%Z eqn:E5;
    destruct (500 <=? status_code r)%Z eqn:E6;
    destruct (status_code r <? 600)%Z eqn:E7; simpl; try reflexivity;
    exfalso;
    try apply Z.leb_le in E4; try apply Z.leb_gt in E4;
    try apply Z.ltb_lt in E5; try apply Z.ltb_ge in E5;
    try apply Z.leb_le in E6; try apply Z.leb_gt in E6;
    try apply Z.ltb_lt in E7; try apply Z.ltb_ge in E7; lia.
Qed.

(** C9 (amended). [get_pdf_metadata] never raises.  It issues one HEAD
    request and nothing else (it does not read the body).  It returns the
    record of [error] and [url] when the request raises (connection error,
    timeout) or the answer has a 4xx or 5xx status, and the probe record
    for an answer of any other status. *)
Theorem get_pdf_metadata_total (env : Env) (u : pyval) (t : trace) :
  get_pdf_metadata env u t
  = (Ok match session_head env u 10 with
        | Ok response =>
            if is_error_status (status_code response)
            then [ ("error", PyStr (http_error_message response));
                   ("url", u) ]
            else
              [ ("content_type",
                 PyStr (headers_get response "content-type" ""));
                ("content_length",
                 PyStr (headers_get response "content-length" ""));
                ("last_modified",
                 PyStr (headers_get response "last-modified" ""));
                ("status_code", PyInt (status_code response));
                ("url", u) ]
        | Raise e => [ ("error", PyStr (exn_msg e)); ("url", u) ]
        end,
     (t ++ [EHead u 10])%list).
Proof.
  unfold get_pdf_metadata, http_head. run.
  destruct (session_head env u 10) as [r|e]; [|reflexivity].
  rewrite raise_for_status_cases.
  now destruct (is_error_status (status_code r)).
Qed.

Example probe_not_found :
  fst (get_pdf_metadata (status_env 404 "Not Found" example_body)
         (PyStr "https://example.org/a.pdf") [])
  = Ok [ ("error",
          PyStr "404 Client Error: Not Found for url: https://example.org/a.pdf");
         ("url", PyStr "https://example.org/a.pdf") ].
Proof. reflexivity. Qed.

(** ** The report round trip *)

Lemma append_assoc (a b c : string) : (a ++ b) ++ c = a ++ (b ++ c).
Proof. induction a as [|x a IH]; simpl; [reflexivity|now rewrite IH]. Qed.

Lemma split_at_app (c : ascii) (l r : string) :
  mem_char c l = false -> split_at c (l ++ String c r) = Some (l, r).
Proof.
  induction l as [|a l IH]; simpl; intros H.
  - now rewrite Ascii.eqb_refl.
  - apply orb_false_iff in H. destruct H as [Ha Hl].
    rewrite Ha, (IH Hl). reflexivity.
Qed.

Lemma mem_char_uint (c : ascii) (d : uint) :
  is_digit c = false -> mem_char c (NilEmpty.string_of_uint d) = false.
Proof.
  intros Hc.
  induction d; cbn [mem_char NilEmpty.string_of_uint]; [reflexivity|..];
    rewrite IHd, orb_false_r; apply Ascii.eqb_neq; intros <-; discriminate Hc.
Qed.

Lemma mem_char_str_of_nat (c : ascii) (n : nat) :
  is_digit c = false -> mem_char c (str_of_nat n) = false.
Proof. apply mem_char_uint. Qed.

Lemma nat_of_str_of_nat (n : nat) : nat_of_str (str_of_nat n) = Some n.
Proof.
  unfold nat_of_str, str_of_nat. rewrite NilEmpty.usu. simpl.
  now rewrite DecimalNat.Unsigned.of_to.
Qed.

Lemma strip_prefix_app (p s : string) : strip_prefix p (p ++ s) = Some s.
Proof.
  induction p as [|a p IH]; simpl; [reflexivity|].
  now rewrite Ascii.eqb_refl.
Qed.

(** The report, grouped the way the parser reads it. *)
Lemma format_report_eq (r : PipelineResult) :
  format_report r
  = (nl ++ "=== PDF Processing Results ===" ++ nl ++ "Source URL: ")
    ++ py_str (url (metadata r))
    ++ String newline
         ("Pages Processed: "
          ++ str_of_nat (pages_processed (metadata r))
          ++ String newline
               ("Content Length: "
                ++ str_of_nat (content_length (metadata r))
                ++ String " "
                     (("characters" ++ nl ++ "Extraction Method: ")
                      ++ py_str (method (metadata r))
                      ++ String newline
                           (("=== Text Content ===" ++ nl ++ nl) ++ text r)))).
Proof.
  unfold format_report, report_header. rewrite !append_assoc. reflexivity.
Qed.

(** C8 (amended). For every result whose URL and method hold no line
    break, parsing its report gives back the URL, the pages processed, the
    content length and the method of its metadata, and the content section
    is its text. *)
Theorem report_roundtrip (r : PipelineResult) :
  mem_char newline (py_str (url (metadata r))) = false ->
  mem_char newline (py_str (method (metadata r))) = false ->
  parse_report (format_report r)
  = Some {| source_url := py_str (url (metadata r));
            pages := pages_processed (metadata r);
            length_field := content_length (metadata r);
            extraction_method := py_str (method (metadata r));
            content_section := text r |}.
Proof.
  intros Hu Hm. rewrite format_report_eq. unfold parse_report.
  rewrite strip_prefix_app. unfold opt_bind at 1.
  rewrite (split_at_app newline _ _ Hu). unfold opt_bind at 1.
  rewrite strip_prefix_app. unfold opt_bind at 1.
  rewrite (split_at_app newline _ _ (mem_char_str_of_nat newline _ eq_refl)).
  unfold opt_bind at 1. rewrite nat_of_str_of_nat. unfold opt_bind at 1.
  rewrite strip_prefix_app. unfold opt_bind at 1.
  rewrite (split_at_app " " _ _ (mem_char_str_of_nat " " _ eq_refl)).
  unfold opt_bind at 1. rewrite nat_of_str_of_nat. unfold opt_bind at 1.
  rewrite strip_prefix_app. unfold opt_bind at 1.
  rewrite (split_at_app newline _ _ Hm). unfold opt_bind at 1.
  rewrite strip_prefix_app. reflexivity.
Qed.

Lemma report_roundtrip_witness :
  parse_report
    (format_report
       (success_result (PyStr "https://example.org/a.pdf") (PyStr "pypdf2")
                       (page_marker 1 ++ nl ++ "alpha")))
  = Some {| source_url := "https://example.org/a.pdf";
            pages := 1;
            length_field := 22;
            extraction_method := "pypdf2";
            content_section := page_marker 1 ++ nl ++ "alpha" |}.
Proof.
  apply (report_roundtrip
           (success_result (PyStr "https://example.org/a.pdf") (PyStr "pypdf2")
                           (page_marker 1 ++ nl ++ "alpha")));
    reflexivity.
Defined.

Lemma crafted_reports_coincide :
  fst (process_pdf_from_url two_document_env (PyStr plain_url) (PyStr "pypdf2") [])
  = Ok (success_result (PyStr plain_url) (PyStr "pypdf2") long_text)
  /\ fst (process_pdf_from_url two_document_env (PyStr crafted_url)
            (PyStr "pypdf2") [])
     = Ok (success_result (PyStr crafted_url) (PyStr "pypdf2") short_text)
  /\ format_report (success_result (PyStr plain_url) (PyStr "pypdf2") long_text)
     = format_report
         (success_result (PyStr crafted_url) (PyStr "pypdf2") short_text).
Proof. repeat split; vm_compute; reflexivity. Qed.

(** C8, as stated, fails: no parser recovers the URL from the report of
    every successful result, because two successful results with different
    URLs have the same report. *)
Lemma report_roundtrip_counterexample :
  ~ (exists parse : string -> option ReportFields,
        forall (env : Env) (u m : pyval) (t : trace) (r : PipelineResult),
          fst (process_pdf_from_url env u m t) = Ok r ->
          success r = true ->
          parse (format_report r)
          = Some {| source_url := py_str (url (metadata r));
                    pages := pages_processed (metadata r);
                    length_field := content_length (metadata r);
                    extraction_method := py_str (method (metadata r));
                    content_section := text r |}).
Proof.
  intros (parse & H).
  destruct crafted_reports_coincide as (Ha & Hb & Heq).
  pose proof (H _ _ _ _ _ Ha eq_refl) as Pa.
  pose proof (H _ _ _ _ _ Hb eq_refl) as Pb.
  rewrite Heq in Pa. rewrite Pa in Pb.
  injection Pb as Hurl _ _ _. 
  vm_compute in Hurl. discriminate Hurl.
Qed.

(** ** Where the page count is right *)

Lemma startswith_app_newline (sub a b : string) :
  mem_char newline sub = false ->
  startswith sub (a ++ String newline b) = startswith sub a.
Proof.
  unfold startswith. revert a.
  induction sub as [|x sub IH]; intros a Hsub; [now destruct a|].
  cbn [mem_char] in Hsub. apply orb_false_iff in Hsub. destruct Hsub as [Hx Hs].
  destruct a as [|y a]; simpl.
  - destruct (ascii_dec x newline) as [->|]; [|reflexivity].
    now rewrite Ascii.eqb_refl in Hx.
  - destruct (ascii_dec x y); [now apply IH|reflexivity].
Qed.

Lemma startswith_length (sub s : string) :
  startswith sub s = true -> String.length sub <= String.length s.
Proof.
  unfold startswith. revert s.
  induction sub as [|x sub IH]; intros s H; simpl; [lia|].
  destruct s as [|y s]; simpl in *; [discriminate|].
  destruct (ascii_dec x y); [|discriminate].
  specialize (IH s H). lia.
Qed.

(** An occurrence of a string without line feed does not span a line feed:
    occurrences are counted line by line. *)
Lemma count_from_app_newline (sub a b : string) :
  sub <> "" -> mem_char newline sub = false ->
  forall k, k <= String.length a ->
    count_from sub (a ++ String newline b) k
    = count_from sub a k + count_from sub b 0.
Proof.
  intros Hne Hsub. induction a as [|c a IH]; intros k Hk.
  - simpl in Hk. assert (k = 0) as -> by lia.
    cbn [append count_from].
    pose proof (startswith_app_newline sub "" b Hsub) as E.
    cbn [append] in E. rewrite E.
    destruct sub; [contradiction|reflexivity].
  - destruct k as [|k]; cbn [append count_from].
    + change (String c (a ++ String newline b))
        with (String c a ++ String newline b).
      rewrite (startswith_app_newline sub (String c a) b Hsub).
      destruct (startswith sub (String c a)) eqn:E.
      * apply startswith_length in E. simpl in E.
        rewrite IH by lia. reflexivity.
      * apply IH. lia.
    + apply IH. simpl in Hk. lia.
Qed.

Lemma count_from_digits (d : uint) :
  count_from "--- Page" (NilEmpty.string_of_uint d ++ " ---") 0 = 0.
Proof. induction d; simpl; auto. Qed.

Lemma count_marker_line (n : nat) :
  count_from "--- Page" ("--- Page " ++ str_of_nat n ++ " ---") 0 = 1.
Proof.
  unfold str_of_nat. simpl. now rewrite count_from_digits.
Qed.

Lemma count_from_newline (b : string) :
  count_from "--- Page" (String newline b) 0 = count_from "--- Page" b 0.
Proof. reflexivity. Qed.

(** Where no page text holds the string ["--- Page"], its occurrences in
    the text returned are the markers: one per page that contributed. *)
Lemma count_page_blocks (pages : list Page) :
  forall n,
    (forall p s, In p pages -> page_emits p = Some s ->
                 count "--- Page" s = 0) ->
    count "--- Page" (join nl (page_blocks pages n))
    = List.length (pages_emitted pages n).
Proof.
  unfold count, join.
  induction pages as [|p rest IH]; intros n Hp; [reflexivity|].
  assert (IH' := IH (S n) (fun q s Hq => Hp q s (or_intror Hq))).
  cbn [page_blocks pages_emitted].
  destruct (page_emits p) as [s|] eqn:E; [|exact IH'].
  assert (Hs := Hp p s (or_introl eq_refl) E).
  assert (Hm : forall X, count_from "--- Page" (page_marker n ++ nl ++ X) 0
                         = S (count_from "--- Page" X 0)).
  { intros X.
    assert (page_marker n ++ nl ++ X
            = String newline
                (("--- Page " ++ str_of_nat n ++ " ---")
                 ++ String newline (String newline X))) as ->
        by (unfold page_marker, nl; rewrite !append_assoc; reflexivity).
    rewrite count_from_newline.
    rewrite count_from_app_newline; [|discriminate|reflexivity|lia].
    now rewrite count_marker_line, count_from_newline. }
  cbn [List.length].
  change (String.concat nl (page_marker n :: s :: page_blocks rest (S n)))
    with (page_marker n ++ nl ++ String.concat nl (s :: page_blocks rest (S n))).
  rewrite Hm. f_equal.
  destruct (page_blocks rest (S n)) as [|b bl] eqn:Eb.
  - cbn [String.concat]. rewrite Hs. exact IH'.
  - change (String.concat nl (s :: b :: bl))
      with (s ++ String newline (String.concat nl (b :: bl))).
    rewrite count_from_app_newline; [|discriminate|reflexivity|lia].
    now rewrite Hs, IH'.
Qed.

(** On every successful run over a document none of whose page texts holds
    ["--- Page"], [pages_processed] is the number of pages that contributed
    a marker. *)
Lemma pages_processed_counts_pages
      (env : Env) (u : pyval) (ms : string) (t t1 : trace)
      (d : option bytes) (pages : list Page) (r : PipelineResult) :
  download_pdf env u default_timeout t = (Ok d, t1) ->
  not_bytes d = false ->
  open_document env (dispatch ms) (bytes_of d) = Ok pages ->
  (forall p s, In p pages -> page_emits p = Some s ->
               count "--- Page" s = 0) ->
  fst (process_pdf_from_url env u (PyStr ms) t) = Ok r ->
  success r = true ->
  pages_processed (metadata r) = List.length (pages_emitted pages 1).
Proof.
  intros Hd Hn Ho Hp Hr Hs.
  rewrite (process_run env u (PyStr ms) t t1 d Hd), Hn in Hr.
  cbv zeta in Hr. unfold extracted in Hr. rewrite Ho in Hr.
  destruct (String.eqb (strip (join nl (page_blocks pages 1))) "");
    simpl in Hr; injection Hr as <-; [discriminate Hs|].
  simpl. now apply count_page_blocks.
Qed.

Example pages_processed_three_pages :
  exists r,
    fst (process_pdf_from_url (env_of example_body (Ok three_pages))
           (PyStr "https://example.org/a.pdf") (PyStr "pdfplumber") []) = Ok r
    /\ success r = true
    /\ pages_processed (metadata r) = 2
    /\ pages_emitted three_pages 1 = [1; 3].
Proof. eexists. repeat split; vm_compute; reflexivity. Qed.

(** * Further properties *)

(** ** [download_pdf]: when it succeeds *)

Lemma download_pdf_some_iff
      (env : Env) (u : pyval) (timeout : nat) (t : trace)
      (shown : string) (b : bytes) :
  py_format u = Ok shown ->
  fst (download_pdf env u timeout t) = Ok (Some b)
  <-> exists p r,
      urlparse env u = Ok p
      /\ scheme p <> "" /\ netloc p <> ""
      /\ session_get env u timeout = Ok r
      /\ raise_for_status r = Ok tt
      /\ content r = Ok b
      /\ (contains "pdf" (lower (headers_get r "content-type" "")) = true
          \/ isinstance_str u = true).
Proof.
  intros Ef.
  unfold download_pdf, http_get. run. rewrite !Ef.
  destruct (urlparse env u) as [p|e] eqn:Ep.
  2:{ split.
      - destruct (exn_cls e); discriminate.
      - intros (p & r & H & _). discriminate H. }
  destruct (String.eqb (scheme p) "") eqn:Es.
  { simpl. split; [discriminate|].
    intros (p' & r & [= <-] & Hs & _). apply String.eqb_eq in Es. contradiction. }
  destruct (String.eqb (netloc p) "") eqn:En.
  { simpl. split; [discriminate|].
    intros (p' & r & [= <-] & _ & Hn & _). apply String.eqb_eq in En.
    contradiction. }
  apply String.eqb_neq in Es, En. simpl.
  destruct (session_get env u timeout) as [r|e] eqn:Eg.
  2:{ split.
      - destruct (exn_cls e); discriminate.
      - intros (p' & r & _ & _ & _ & H & _). discriminate H. }
  destruct (raise_for_status r) as [[]|e] eqn:Er.
  2:{ split.
      - destruct (exn_cls e); discriminate.
      - intros (p' & r' & _ & _ & _ & [= <-] & H & _). congruence. }
  clear Ef.
  destruct (content r) as [b'|e'] eqn:Eb;
    destruct (contains "pdf" (lower (headers_get r "content-type" ""))) eqn:Ec;
    unfold str_method; try (destruct u as [| |z|s]; run);
    try (destruct (endswith ".pdf" (lower s)); run);
    try (destruct (exn_cls e')); simpl;
    (split;
     [ intros H; try discriminate H; injection H as <-;
       exists p, r; repeat split; auto
     | intros (p' & r' & _ & _ & _ & Hr & _ & Hb & Hor);
       injection Hr as <-; try congruence;
       destruct Hor as [Hor|Hor]; try congruence; discriminate Hor ]).
Qed.

(** X1. [download_pdf] never raises, and it returns a body exactly when the
    log line can quote the URL, the URL parses with a scheme and a host, the
    GET, its status check and the reading of the body all return, and the
    advisory check can be made: the declared content type holds ["pdf"], or
    the URL is a string (on any other value [url.lower()] raises and the
    download is given up). *)
Theorem download_pdf_succeeds_iff
        (env : Env) (u : pyval) (timeout : nat) (t : trace) :
  (exists d t1, download_pdf env u timeout t = (Ok d, t1))
  /\ forall b,
      fst (download_pdf env u timeout t) = Ok (Some b)
      <-> (exists shown, py_format u = Ok shown)
          /\ exists p r,
          urlparse env u = Ok p
          /\ scheme p <> "" /\ netloc p <> ""
          /\ session_get env u timeout = Ok r
          /\ raise_for_status r = Ok tt
          /\ content r = Ok b
          /\ (contains "pdf" (lower (headers_get r "content-type" "")) = true
              \/ isinstance_str u = true).
Proof.
  split; [apply download_pdf_total|]. intros b.
  destruct (py_format u) as [shown|e0] eqn:Ef.
  - rewrite (download_pdf_some_iff env u timeout t shown b Ef).
    split; [intros H; split; [eauto|exact H]|intros [_ H]; exact H].
  - rewrite (download_pdf_format_raises env u timeout t e0 Ef).
    split; [discriminate|]. intros [[shown H] _]. discriminate H.
Qed.

(** X2. The content-type check of [download_pdf] is advisory.  For a string
    URL whose GET succeeds, the body is returned whatever type the server
    declares; a warning is logged exactly when neither the declared type
    holds ["pdf"] nor the URL ends in [".pdf"], both compared in lower
    case. *)
Theorem advisory_check_not_fatal
        (env : Env) (s : string) (timeout : nat) (t : trace)
        (p : ParseResult) (r : Response) (b : bytes) :
  urlparse env (PyStr s) = Ok p ->
  scheme p <> "" -> netloc p <> "" ->
  session_get env (PyStr s) timeout = Ok r ->
  raise_for_status r = Ok tt ->
  content r = Ok b ->
  download_pdf env (PyStr s) timeout t
  = (Ok (Some b),
     (t ++ [ELog Info ("Downloading PDF from: " ++ s); EGet (PyStr s) timeout]
        ++ advisory_log s r b)%list).
Proof.
  intros Hp Hs Hn Hg Hr Hb. unfold download_pdf, http_get, advisory_log. run.
  rewrite Hp. apply String.eqb_neq in Hs, Hn. rewrite Hs, Hn. simpl.
  rewrite Hg, Hr.
  destruct (contains "pdf" (lower (headers_get r "content-type" ""))); simpl.
  - rewrite Hb. now rewrite <- !app_assoc.
  - destruct (endswith ".pdf" (lower s)); run; rewrite Hb;
      now rewrite <- !app_assoc.
Qed.

Lemma advisory_check_not_fatal_witness :
  download_pdf html_env (PyStr "https://example.org/page") 30 []
  = (Ok (Some example_body),
     ([] ++ [ELog Info ("Downloading PDF from: " ++ "https://example.org/page");
             EGet (PyStr "https://example.org/page") 30]
         ++ advisory_log "https://example.org/page"
              (html_response example_body) example_body)%list).
Proof.
  apply (advisory_check_not_fatal html_env "https://example.org/page" 30 []
           {| scheme := "https"; netloc := "example.org" |}
           (html_response example_body) example_body);
    (reflexivity || discriminate).
Defined.

Example advisory_warning_logged :
  advisory_log "https://example.org/page" (html_response example_body)
               example_body
  = [ELog Warning "URL might not be a PDF. Content-Type: text/html";
     ELog Info "Successfully downloaded PDF (4 bytes)"].
Proof. reflexivity. Qed.

Example advisory_suffix_any_case :
  advisory_log "https://example.org/BOOK.PDF" (html_response example_body)
               example_body
  = [ELog Info "Successfully downloaded PDF (4 bytes)"].
Proof. reflexivity. Qed.

(** ** The text of any document *)

Lemma page_emits_text (page : Page) (s : string) :
  page_emits page = Some s -> page_text page = s /\ strip s <> "".
Proof.
  destruct page as [[s'|]|e]; simpl; try discriminate.
  destruct (String.eqb (strip s') "") eqn:E; [discriminate|].
  intros [= <-]. split; [reflexivity|]. now apply String.eqb_neq.
Qed.

Lemma page_emits_none (page : Page) :
  page_emits page = None -> strip (page_text page) = "".
Proof.
  destruct page as [[s'|]|e]; simpl; try reflexivity.
  destruct (String.eqb (strip s') "") eqn:E; [|discriminate].
  intros _. now apply String.eqb_eq.
Qed.

Lemma pages_emitted_iff (pages : list Page) :
  forall n i,
    In i (pages_emitted pages n)
    <-> n <= i < n + List.length pages
        /\ strip (page_text (nth (i - n) pages (Ok None))) <> "".
Proof.
  induction pages as [|p rest IH]; intros n i.
  - simpl. split; [contradiction|]. intros [H _]. lia.
  - assert (Hrest : In i (pages_emitted rest (S n))
                    <-> S n <= i < n + List.length (p :: rest)
                        /\ strip (page_text (nth (i - n) (p :: rest) (Ok None)))
                           <> "").
    { rewrite IH. simpl List.length. split; intros [Hi Hs]; (split; [lia|]).
      - replace (i - n) with (S (i - S n)) by lia. exact Hs.
      - replace (i - n) with (S (i - S n)) in Hs by lia. exact Hs. }
    cbn [pages_emitted]. destruct (page_emits p) as [s|] eqn:E.
    + apply page_emits_text in E. destruct E as [Et Es].
      cbn [In]. rewrite Hrest. split.
      * intros [<- | [Hi Hs]].
        -- split; [simpl; lia|]. rewrite Nat.sub_diag. simpl. now rewrite Et.
        -- split; [lia|exact Hs].
      * intros [Hi Hs]. destruct (Nat.eq_dec n i) as [->|Hne]; [now left|].
        right. split; [lia|exact Hs].
    + apply page_emits_none in E. rewrite Hrest. split.
      * intros [Hi Hs]. split; [lia|exact Hs].
      * intros [Hi Hs]. destruct (Nat.eq_dec n i) as [->|Hne].
        -- rewrite Nat.sub_diag in Hs. simpl in Hs. contradiction.
        -- split; [lia|exact Hs].
Qed.

Lemma pages_emitted_sorted (pages : list Page) :
  forall n, StronglySorted lt (pages_emitted pages n).
Proof.
  induction pages as [|p rest IH]; intros n; simpl; [constructor|].
  destruct (page_emits p); [|apply IH].
  constructor; [apply IH|].
  apply Forall_forall. intros i Hi. apply pages_emitted_iff in Hi. lia.
Qed.

Lemma flat_map_ext_in {A B} (f g : A -> list B) (l : list A) :
  (forall a, In a l -> f a = g a) -> flat_map f l = flat_map g l.
Proof.
  induction l as [|a l IH]; intros H; simpl; [reflexivity|].
  rewrite (H a (or_introl eq_refl)), IH; [reflexivity|].
  intros a' Ha. apply H. now right.
Qed.

Lemma page_blocks_formula (pages : list Page) :
  forall n,
    page_blocks pages n
    = flat_map (fun i => [page_marker i;
                          page_text (nth (i - n) pages (Ok None))])
               (pages_emitted pages n).
Proof.
  induction pages as [|p rest IH]; intros n; [reflexivity|].
  assert (Hrest : page_blocks rest (S n)
                  = flat_map (fun i => [page_marker i;
                                        page_text (nth (i - n) (p :: rest)
                                                       (Ok None))])
                             (pages_emitted rest (S n))).
  { rewrite IH. apply flat_map_ext_in. intros i Hi.
    apply pages_emitted_iff in Hi.
    replace (i - n) with (S (i - S n)) by lia. reflexivity. }
  cbn [page_blocks pages_emitted]. destruct (page_emits p) as [s|] eqn:E.
  - apply page_emits_text in E. destruct E as [Et _].
    cbn [flat_map]. rewrite Nat.sub_diag. cbn [nth app]. now rewrite Et, Hrest.
  - exact Hrest.
Qed.

(** X3. Whatever pages raise, return [None] or yield blank text, either
    strategy returns the marker and the text of every page whose text is
    not blank, in ascending page order and numbered from 1, joined by line
    feeds; the other pages leave no trace in the text. *)
Theorem extract_text_formula
        (env : Env) (st : strategy) (b : bytes) (pages : list Page) :
  open_document env st b = Ok pages ->
  (forall t,
      fst (extract env st b t)
      = Ok (join nl (flat_map (fun i => [page_marker i;
                                         page_text (nth_page pages i)])
                              (pages_emitted pages 1))))
  /\ StronglySorted lt (pages_emitted pages 1)
  /\ (forall i,
         In i (pages_emitted pages 1)
         <-> 1 <= i <= List.length pages
             /\ strip (page_text (nth_page pages i)) <> "").
Proof.
  intros Ho. split; [|split].
  - intros t. rewrite extract_spec, Ho. simpl fst.
    now rewrite page_blocks_formula.
  - apply pages_emitted_sorted.
  - intros i. rewrite pages_emitted_iff. unfold nth_page.
    split; intros [Hi Hs]; (split; [lia|exact Hs]).
Qed.

Lemma extract_text_formula_witness :
  (forall t,
      fst (extract (env_of example_body (Ok three_pages)) Pypdf2 example_body t)
      = Ok (join nl (flat_map (fun i => [page_marker i;
                                         page_text (nth_page three_pages i)])
                              (pages_emitted three_pages 1))))
  /\ StronglySorted lt (pages_emitted three_pages 1)
  /\ (forall i,
         In i (pages_emitted three_pages 1)
         <-> 1 <= i <= List.length three_pages
             /\ strip (page_text (nth_page three_pages i)) <> "").
Proof.
  apply (extract_text_formula (env_of example_body (Ok three_pages)) Pypdf2
           example_body three_pages).
  reflexivity.
Defined.

(** X4. The two strategies are interchangeable: when PyPDF2 and pdfplumber
    read the same pages out of a byte sequence, [extract_text_pypdf2] and
    [extract_text_pdfplumber] return the same text.  (A page whose text is
    [None] is skipped by both, by PyPDF2 through the [AttributeError] of
    [None.strip()], by pdfplumber through its truth test.) *)
Theorem strategies_agree (env : Env) (b : bytes) (pages : list Page) :
  PdfReader env b = Ok pages ->
  pdfplumber_open env b = Ok pages ->
  forall t1 t2,
    fst (extract_text_pypdf2 env b t1) = fst (extract_text_pdfplumber env b t2).
Proof.
  intros Hr Hp t1 t2.
  change (fst (extract env Pypdf2 b t1) = fst (extract env Pdfplumber b t2)).
  rewrite !extract_spec. simpl open_document. now rewrite Hr, Hp.
Qed.

Lemma strategies_agree_witness :
  fst (extract_text_pypdf2 (env_of example_body (Ok pages_with_none))
         example_body [])
  = fst (extract_text_pdfplumber (env_of example_body (Ok pages_with_none))
           example_body [ELog Info "earlier call"]).
Proof.
  apply (strategies_agree (env_of example_body (Ok pages_with_none))
           example_body pages_with_none); reflexivity.
Defined.

(** ** When a run succeeds *)

Lemma strip_marker_start (X : string) :
  strip (String newline (String "-" X)) <> "".
Proof.
  unfold strip. simpl lstrip. cbn [rstrip].
  destruct (rstrip X); simpl; discriminate.
Qed.

Lemma page_blocks_cases (pages : list Page) :
  forall n,
    (page_blocks pages n = [] /\ pages_emitted pages n = [])
    \/ exists i s rest es,
        page_blocks pages n = page_marker i :: s :: rest
        /\ pages_emitted pages n = i :: es.
Proof.
  induction pages as [|p rest IH]; intros n; simpl; [now left|].
  destruct (page_emits p) as [s|]; [|apply IH].
  right. now exists n, s, (page_blocks rest (S n)), (pages_emitted rest (S n)).
Qed.

(** The text returned is blank exactly when no page contributed. *)
Lemma blank_text_iff (pages : list Page) (n : nat) :
  String.eqb (strip (join nl (page_blocks pages n))) "" = true
  <-> pages_emitted pages n = [].
Proof.
  destruct (page_blocks_cases pages n) as [[Hb He] | (i & s & rest & es & Hb & He)];
    rewrite Hb, He.
  - simpl. tauto.
  - split; [|discriminate]. intros H. exfalso.
    apply String.eqb_eq in H. revert H.
    unfold join. cbn [String.concat]. unfold page_marker.
    change (nl ++ ?x) with (String newline x).
    cbn [append]. apply strip_marker_start.
Qed.

(** X5. With a method string, [process_pdf_from_url] succeeds exactly when
    the download gave a non-empty body, the library chosen could open it,
    and at least one page yields text that is not blank. *)
Theorem run_succeeds_iff
        (env : Env) (u : pyval) (ms : string) (t t1 : trace)
        (d : option bytes) :
  download_pdf env u default_timeout t = (Ok d, t1) ->
  exists r,
    fst (process_pdf_from_url env u (PyStr ms) t) = Ok r
    /\ (success r = true
        <-> not_bytes d = false
            /\ exists pages,
                open_document env (dispatch ms) (bytes_of d) = Ok pages
                /\ exists i, 1 <= i <= List.length pages
                             /\ strip (page_text (nth_page pages i)) <> "").
Proof.
  intros Hd. rewrite (process_run env u (PyStr ms) t t1 d Hd).
  destruct (not_bytes d).
  { eexists. split; [reflexivity|]. simpl. split; [discriminate|].
    intros [H _]. discriminate H. }
  cbv zeta. unfold extracted.
  destruct (open_document env (dispatch ms) (bytes_of d)) as [pages|e] eqn:Ho.
  2:{ simpl. eexists. split; [reflexivity|]. simpl. split; [discriminate|].
      intros (_ & pages & H & _). discriminate H. }
  destruct (String.eqb (strip (join nl (page_blocks pages 1))) "") eqn:E.
  - eexists. split; [reflexivity|]. simpl. split; [discriminate|].
    intros (_ & pages' & [= <-] & i & Hi & Hs). exfalso.
    apply blank_text_iff in E.
    assert (Hin : In i (pages_emitted pages 1)).
    { apply pages_emitted_iff. unfold nth_page in Hs. split; [lia|exact Hs]. }
    rewrite E in Hin. contradiction.
  - eexists. split; [reflexivity|]. simpl. split; [|reflexivity].
    intros _. split; [reflexivity|]. exists pages. split; [reflexivity|].
    destruct (pages_emitted pages 1) as [|i es] eqn:Ee.
    + apply blank_text_iff in Ee. congruence.
    + assert (Hin : In i (pages_emitted pages 1)) by (rewrite Ee; now left).
      apply pages_emitted_iff in Hin. exists i. unfold nth_page.
      destruct Hin as [Hi Hs]. split; [lia|exact Hs].
Qed.

Lemma run_succeeds_iff_witness :
  exists r,
    fst (process_pdf_from_url (env_of example_body (Ok pages_with_none))
           (PyStr "https://example.org/a.pdf") (PyStr "pypdf2") []) = Ok r
    /\ (success r = true
        <-> not_bytes (Some example_body) = false
            /\ exists pages,
                open_document (env_of example_body (Ok pages_with_none))
                              (dispatch "pypdf2") (bytes_of (Some example_body))
                = Ok pages
                /\ exists i, 1 <= i <= List.length pages
                             /\ strip (page_text (nth_page pages i)) <> "").
Proof.
  apply (run_succeeds_iff (env_of example_body (Ok pages_with_none))
           (PyStr "https://example.org/a.pdf") "pypdf2" []
           [ELog Info "Downloading PDF from: https://example.org/a.pdf";
            EGet (PyStr "https://example.org/a.pdf") 30;
            ELog Info "Successfully downloaded PDF (4 bytes)"]
           (Some example_body)).
  reflexivity.
Defined.

(** ** What [pages_processed] counts *)

Lemma count_marker_then (n : nat) (X : string) :
  count_from "--- Page" (page_marker n ++ nl ++ X) 0
  = S (count_from "--- Page" X 0).
Proof.
  assert (page_marker n ++ nl ++ X
          = String newline
              (("--- Page " ++ str_of_nat n ++ " ---")
               ++ String newline (String newline X))) as ->
      by (unfold page_marker, nl; rewrite !append_assoc; reflexivity).
  rewrite count_from_newline.
  rewrite count_from_app_newline; [|discriminate|reflexivity|lia].
  now rewrite count_marker_line, count_from_newline.
Qed.

Lemma count_page_blocks_exact (pages : list Page) :
  forall n,
    count "--- Page" (join nl (page_blocks pages n))
    = List.length (pages_emitted pages n) + inner_occurrences pages.
Proof.
  unfold count, join.
  induction pages as [|p rest IH]; intros n; [reflexivity|].
  cbn [page_blocks pages_emitted inner_occurrences].
  destruct (page_emits p) as [s|] eqn:E; [|apply IH].
  cbn [List.length]. unfold count.
  change (String.concat nl (page_marker n :: s :: page_blocks rest (S n)))
    with (page_marker n ++ nl ++ String.concat nl (s :: page_blocks rest (S n))).
  rewrite count_marker_then.
  destruct (page_blocks_cases rest (S n))
    as [[Hb He] | (i & s' & bl & es & Hb & He)].
  - rewrite Hb. cbn [String.concat]. specialize (IH (S n)).
    rewrite Hb in IH. cbn [String.concat count_from] in IH. lia.
  - specialize (IH (S n)). rewrite Hb in IH. rewrite Hb.
    change (String.concat nl (s :: page_marker i :: s' :: bl))
      with (s ++ String newline (String.concat nl (page_marker i :: s' :: bl))).
    rewrite count_from_app_newline; [|discriminate|reflexivity|lia].
    rewrite IH. simpl. lia.
Qed.

(** X6. On a successful run [pages_processed] is the number of pages that
    contributed a marker plus the number of occurrences of ["--- Page"]
    inside the texts of those pages: it is never below the number of
    markers, and it exceeds it by what the page texts themselves hold. *)
Theorem pages_processed_formula
        (env : Env) (u : pyval) (ms : string) (t t1 : trace)
        (d : option bytes) (pages : list Page) (r : PipelineResult) :
  download_pdf env u default_timeout t = (Ok d, t1) ->
  not_bytes d = false ->
  open_document env (dispatch ms) (bytes_of d) = Ok pages ->
  fst (process_pdf_from_url env u (PyStr ms) t) = Ok r ->
  success r = true ->
  pages_processed (metadata r)
  = List.length (pages_emitted pages 1) + inner_occurrences pages.
Proof.
  intros Hd Hn Ho Hr Hs.
  rewrite (process_run env u (PyStr ms) t t1 d Hd), Hn in Hr.
  cbv zeta in Hr. unfold extracted in Hr. rewrite Ho in Hr.
  destruct (String.eqb (strip (join nl (page_blocks pages 1))) "");
    simpl in Hr; injection Hr as <-; [discriminate Hs|].
  simpl. apply count_page_blocks_exact.
Qed.

Lemma pages_processed_formula_witness :
  pages_processed
    (metadata (success_result (PyStr "https://example.org/a.pdf")
                 (PyStr "pdfplumber") (join nl (page_blocks dashed_pages 1))))
  = List.length (pages_emitted dashed_pages 1) + inner_occurrences dashed_pages.
Proof.
  apply (pages_processed_formula (env_of example_body (Ok dashed_pages))
           (PyStr "https://example.org/a.pdf") "pdfplumber" []
           [ELog Info "Downloading PDF from: https://example.org/a.pdf";
            EGet (PyStr "https://example.org/a.pdf") 30;
            ELog Info "Successfully downloaded PDF (4 bytes)"]
           (Some example_body) dashed_pages); reflexivity.
Defined.

Example pages_processed_dashed :
  List.length (pages_emitted dashed_pages 1) = 2
  /\ inner_occurrences dashed_pages = 2
  /\ count "--- Page" (join nl (page_blocks dashed_pages 1)) = 4.
Proof. repeat split; reflexivity. Qed.

(** ** Page markers *)

Lemma marker_number_of_marker (n : nat) :
  marker_number (page_marker n) = Some n.
Proof.
  unfold marker_number, page_marker.
  assert ((nl ++ "--- Page " ++ str_of_nat n ++ " ---" ++ nl)
          = (nl ++ "--- Page ") ++ str_of_nat n ++ String " " ("---" ++ nl)) as ->
      by (now rewrite !append_assoc).
  rewrite strip_prefix_app. unfold opt_bind at 1.
  rewrite (split_at_app " " _ _ (mem_char_str_of_nat " " n eq_refl)).
  unfold opt_bind. rewrite String.eqb_refl. apply nat_of_str_of_nat.
Qed.

(** X7. The page number can be read back from a marker, so two pages share
    a marker only if they have the same number. *)
Theorem page_marker_roundtrip (i j : nat) :
  marker_number (page_marker i) = Some i
  /\ (page_marker i = page_marker j <-> i = j).
Proof.
  split; [apply marker_number_of_marker|].
  split; [|now intros ->].
  intros H. apply (f_equal marker_number) in H.
  rewrite !marker_number_of_marker in H. congruence.
Qed.

(** ** The result dictionary *)

(** X8. In every result of [process_pdf_from_url] the metadata echo the URL
    and the method as given, [content_length] is the length of [text] and
    [pages_processed] the number of occurrences of ["--- Page"] in [text];
    a failed result has both counts at zero. *)
Theorem result_metadata (env : Env) (u m : pyval) (t : trace) :
  exists r t',
    process_pdf_from_url env u m t = (Ok r, t')
    /\ url (metadata r) = u
    /\ method (metadata r) = m
    /\ content_length (metadata r) = String.length (text r)
    /\ pages_processed (metadata r) = count "--- Page" (text r)
    /\ (if success r then True
        else pages_processed (metadata r) = 0
             /\ content_length (metadata r) = 0).
Proof.
  destruct (download_pdf_total env u default_timeout t) as (d & t1 & Hd).
  rewrite (process_run env u m t t1 d Hd).
  destruct (not_bytes d).
  { do 2 eexists. split; [reflexivity|]. simpl. tauto. }
  destruct m as [| |z|ms];
    try (do 2 eexists; split; [reflexivity|]; simpl; tauto).
  cbv zeta.
  destruct (String.eqb (strip (extracted env (dispatch ms) (bytes_of d))) "");
    do 2 eexists; (split; [reflexivity|]); simpl; tauto.
Qed.

(** X9. The errors of [process_pdf_from_url].  With a method string the
    error of a result is absent or one of two fixed strings, and the
    handler of unexpected exceptions is never entered.  With a method that
    is [None], a [bool] or an [int], values that have no [lower], a failed
    download is reported as such, and any successful download ends in the
    handler, with the [AttributeError] of [method.lower()] as the message,
    before any extraction: the result is the same whatever the two
    libraries are. *)
Theorem result_errors (env : Env) (u m : pyval) (t : trace) :
  exists r t',
    process_pdf_from_url env u m t = (Ok r, t')
    /\ match m with
       | PyStr _ =>
           error r = None
           \/ error r = Some "Failed to download PDF"
           \/ error r = Some "No text could be extracted from PDF"
       | PyNone | PyBool _ | PyInt _ =>
           error r = Some "Failed to download PDF"
           \/ (error r = Some ("Unexpected error processing PDF: '"
                                 ++ type_name m
                                 ++ "' object has no attribute 'lower'")
               /\ forall f g,
                   fst (process_pdf_from_url
                          (with_pdfplumber_open (with_PdfReader env f) g) u m t)
                   = Ok r)
       end.
Proof.
  destruct (download_pdf_total env u default_timeout t) as (d & t1 & Hd).
  rewrite (process_run env u m t t1 d Hd).
  destruct (not_bytes d) eqn:En.
  { do 2 eexists. split; [reflexivity|]. destruct m; simpl; auto. }
  destruct m as [| |z|ms].
  4:{ cbv zeta.
      destruct (String.eqb (strip (extracted env (dispatch ms) (bytes_of d))) "");
        do 2 eexists; (split; [reflexivity|]); simpl; auto. }
  all: do 2 eexists; (split; [reflexivity|]); simpl;
    right; (split; [reflexivity|]);
    intros f g;
    rewrite (process_run (with_pdfplumber_open (with_PdfReader env f) g)
               u _ t t1 d Hd), En; reflexivity.
Qed.

(** ** The tool function: requests and libraries *)

Lemma process_total (env : Env) (u m : pyval) (t : trace) :
  exists r t', process_pdf_from_url env u m t = (Ok r, t').
Proof.
  destruct (download_pdf_total env u default_timeout t) as (d & t1 & Hd).
  rewrite (process_run env u m t t1 d Hd).
  destruct (not_bytes d); [eauto|].
  destruct m as [| |z|ms]; eauto. cbv zeta.
  destruct (String.eqb (strip (extracted env (dispatch ms) (bytes_of d))) "");
    eauto.
Qed.

(** X10. [download_and_parse_pdf] issues at most one network request, the
    GET of the URL with the timeout of 30, and never a HEAD; for a URL that
    is empty or not a string it issues none. *)
Theorem tool_requests (env : Env) (u m : pyval) (t : trace) :
  exists s t',
    download_and_parse_pdf env u m t = (Ok s, t')
    /\ if invalid_url u
       then requests t' = requests t
       else requests t' = requests t
            \/ requests t' = (requests t ++ [EGet u 30])%list.
Proof.
  assert (Hstep : forall l ev, is_request ev = false ->
                               requests (l ++ [ev])%list = requests l).
  { intros l ev Hev. rewrite requests_app. simpl.
    now rewrite Hev, app_nil_r. }
  rewrite download_and_parse_run. cbv zeta. fold (invalid_url u).
  destruct (py_format u) as [shown|e0].
  2:{ do 2 eexists. split; [reflexivity|].
      rewrite Hstep by reflexivity. destruct (invalid_url u); auto. }
  destruct (invalid_url u).
  { do 2 eexists. split; [reflexivity|]. now rewrite Hstep. }
  destruct (recognized m);
    match goal with
    | |- context [process_pdf_from_url env u ?m' ?t0] =>
        destruct (process_total env u m' t0) as (r & t1 & Hrun);
        pose proof (process_requests env u m' t0 t1 r Hrun) as Hreq;
        rewrite Hrun
    end;
    rewrite ?Hstep in Hreq by reflexivity; unfold default_timeout in Hreq;
    destruct (success r); do 2 eexists; (split; [reflexivity|]);
    rewrite ?Hstep by reflexivity; exact Hreq.
Qed.

Lemma process_same_library (env env' : Env) (u : pyval) (ms : string)
      (t : trace) :
  (forall t0, download_pdf env' u default_timeout t0
              = download_pdf env u default_timeout t0) ->
  (forall b, open_document env' (dispatch ms) b
             = open_document env (dispatch ms) b) ->
  process_pdf_from_url env' u (PyStr ms) t
  = process_pdf_from_url env u (PyStr ms) t.
Proof.
  intros Hdl Ho.
  destruct (download_pdf_total env u default_timeout t) as (d & t1 & Hd).
  rewrite (process_run env u (PyStr ms) t t1 d Hd).
  rewrite <- Hdl in Hd.
  rewrite (process_run env' u (PyStr ms) t t1 d Hd).
  unfold extracted, extract_log. now rewrite Ho.
Qed.

(** X11. [download_and_parse_pdf] consults PyPDF2 only when
    [extraction_method] is exactly the string ["pypdf2"], and pdfplumber in
    every other case: putting any other library in the place of the one not
    selected changes neither the string returned nor the trace. *)
Theorem tool_library_selection
        (env : Env) (u m : pyval) (t : trace)
        (f : bytes -> Result (list Page)) :
  download_and_parse_pdf
    (if eq_str m "pypdf2" then with_pdfplumber_open env f
     else with_PdfReader env f) u m t
  = download_and_parse_pdf env u m t.
Proof.
  rewrite !download_and_parse_run. cbv zeta.
  destruct (py_format u) as [shown|e0]; [|reflexivity].
  destruct (negb (truthy u) || negb (isinstance_str u)); [reflexivity|].
  destruct (eq_str m "pypdf2") eqn:E2.
  - assert (m = PyStr "pypdf2") as ->.
    { destruct m as [| |z|ms]; try discriminate E2. simpl in E2.
      apply String.eqb_eq in E2. now subst. }
    change (recognized (PyStr "pypdf2")) with true. cbv iota.
    now rewrite (process_same_library env (with_pdfplumber_open env f)).
  - assert (Hm : (if recognized m then m else PyStr "pdfplumber")
                 = PyStr "pdfplumber").
    { unfold recognized. rewrite E2, orb_false_r.
      destruct (eq_str m "pdfplumber") eqn:E1; [|reflexivity].
      destruct m as [| |z|ms]; try discriminate E1. simpl in E1.
      apply String.eqb_eq in E1. now subst. }
    rewrite Hm.
    now rewrite (process_same_library env (with_PdfReader env f)).
Qed.

(** ** What is logged *)

Lemma errors_app (t1 t2 : trace) :
  errors (t1 ++ t2)%list = (errors t1 ++ errors t2)%list.
Proof. apply filter_app. Qed.

Lemma errors_page_warnings st pages n : errors (page_warnings st pages n) = [].
Proof.
  revert n. induction pages as [|p rest IH]; intros n; simpl; [reflexivity|].
  destruct (page_warns st p); simpl; apply IH.
Qed.

(** A download that returns a body has logged no error. *)
Lemma download_pdf_some_errors (env : Env) (u : pyval) (timeout : nat)
      (t t1 : trace) (b : bytes) :
  download_pdf env u timeout t = (Ok (Some b), t1) -> errors t1 = errors t.
Proof.
  destruct (py_format u) as [shown|e0] eqn:Ef.
  2:{ rewrite (download_pdf_format_raises env u timeout t e0 Ef).
      discriminate. }
  unfold download_pdf, http_get. run. rewrite !Ef. clear Ef.
  destruct (urlparse env u) as [p|e]; [|destruct (exn_cls e); discriminate].
  destruct (String.eqb (scheme p) "" || String.eqb (netloc p) "");
    [discriminate|].
  destruct (session_get env u timeout) as [r|e];
    [|destruct (exn_cls e); discriminate].
  destruct (raise_for_status r) as [[]|e];
    [|destruct (exn_cls e); discriminate].
  destruct (content r) as [b'|e'];
    destruct (contains "pdf" (lower (headers_get r "content-type" "")));
    unfold str_method; try (destruct u as [| |z|s]; run);
    try (destruct (endswith ".pdf" (lower s)); run);
    try (destruct (exn_cls e')); try discriminate;
    intros [= _ <-]; rewrite !errors_app; simpl; now rewrite !app_nil_r.
Qed.

(** X12. When [download_and_parse_pdf] returns a ["Failed to process PDF:
    ..."] string, the last record it wrote to the log is that same string,
    at error level. *)
Theorem failure_is_logged
        (env : Env) (u m : pyval) (t t' : trace) (s : string) :
  download_and_parse_pdf env u m t = (Ok s, t') ->
  startswith failed_prefix s = true ->
  exists l, t' = (l ++ [ELog Error s])%list.
Proof.
  rewrite download_and_parse_run. cbv zeta.
  destruct (py_format u) as [shown|e0].
  2:{ intros [= <- _] H. discriminate H. }
  destruct (negb (truthy u) || negb (isinstance_str u)).
  { intros [= <- _] H. discriminate H. }
  match goal with
  | |- context [process_pdf_from_url env u ?m' ?t0] =>
      destruct (process_total env u m' t0) as (r & t1 & Hrun); rewrite Hrun
  end.
  destruct (success r).
  - intros [= <- _] H. discriminate H.
  - intros [= <- <-] _. now exists t1.
Qed.

Lemma failure_is_logged_witness :
  exists l,
    [ELog Info "Processing PDF from URL: https://example.org/a.pdf";
     ELog Info "Downloading PDF from: https://example.org/a.pdf";
     EGet (PyStr "https://example.org/a.pdf") 30;
     ELog Error
       "Error downloading PDF from https://example.org/a.pdf: connection refused";
     ELog Error "Failed to process PDF: Failed to download PDF"]
    = (l ++ [ELog Error "Failed to process PDF: Failed to download PDF"])%list.
Proof.
  apply (failure_is_logged offline_env (PyStr "https://example.org/a.pdf")
           (PyStr "pdfplumber") []); reflexivity.
Defined.

(** X13. When [download_and_parse_pdf] returns a report, nothing was logged
    at error level during the call: page failures are warnings only. *)
Theorem success_logs_no_error
        (env : Env) (u m : pyval) (t t' : trace) (s : string) :
  download_and_parse_pdf env u m t = (Ok s, t') ->
  startswith (nl ++ "=== PDF Processing Results ===") s = true ->
  errors t' = errors t.
Proof.
  rewrite download_and_parse_run. cbv zeta.
  destruct (py_format u) as [shown|e0].
  2:{ intros [= <- _] H. discriminate H. }
  destruct (negb (truthy u) || negb (isinstance_str u)).
  { intros [= <- _] H. discriminate H. }
  destruct (normalized_method_is_str m) as (ms & Hms). rewrite Hms.
  match goal with
  | |- context [process_pdf_from_url env u _ ?t0] =>
      destruct (download_pdf_total env u default_timeout t0) as (d & t1 & Hd);
      rewrite (process_run env u (PyStr ms) t0 t1 d Hd);
      assert (Ht0 : errors t0 = errors t)
        by (destruct (recognized m); rewrite !errors_app; simpl;
            now rewrite !app_nil_r)
  end.
  destruct d as [[|x bs]|]; simpl not_bytes; cbv iota;
    try (intros [= <- _] H; discriminate H).
  cbv zeta. unfold extracted, extract_log. simpl bytes_of.
  destruct (open_document env (dispatch ms) (x :: bs)) as [pages|e].
  2:{ simpl. intros [= <- _] H. discriminate H. }
  destruct (String.eqb (strip (join nl (page_blocks pages 1))) "").
  { intros [= <- _] H. discriminate H. }
  intros [= _ <-] _.
  rewrite !errors_app. simpl. rewrite errors_page_warnings.
  rewrite (download_pdf_some_errors env u default_timeout _ t1 (x :: bs) Hd).
  rewrite Ht0. now rewrite !app_nil_r.
Qed.

Lemma success_logs_no_error_witness :
  errors
    (snd (download_and_parse_pdf (env_of example_body (Ok three_pages))
            (PyStr "https://example.org/a.pdf") (PyStr "bogus") []))
  = errors [].
Proof.
  apply (success_logs_no_error (env_of example_body (Ok three_pages))
           (PyStr "https://example.org/a.pdf") (PyStr "bogus") []
           (snd (download_and_parse_pdf (env_of example_body (Ok three_pages))
                   (PyStr "https://example.org/a.pdf") (PyStr "bogus") []))
           (format_report
              (success_result (PyStr "https://example.org/a.pdf")
                 (PyStr "pdfplumber") (join nl (page_blocks three_pages 1)))));
    reflexivity.
Defined.

(** ** From the tool's output back to the run *)

Lemma parse_report_header (meta : Metadata) (txt : string) :
  mem_char newline (py_str (url meta)) = false ->
  mem_char newline (py_str (method meta)) = false ->
  parse_report (report_header meta ++ txt)
  = Some {| source_url := py_str (url meta);
            pages := pages_processed meta;
            length_field := content_length meta;
            extraction_method := py_str (method meta);
            content_section := txt |}.
Proof.
  intros Hu Hm.
  change (report_header meta ++ txt)
    with (format_report {| success := true; text := txt; error := None;
                           metadata := meta |}).
  rewrite format_report_eq. unfold parse_report. cbn [metadata text].
  rewrite strip_prefix_app. unfold opt_bind at 1.
  rewrite (split_at_app newline _ _ Hu). unfold opt_bind at 1.
  rewrite strip_prefix_app. unfold opt_bind at 1.
  rewrite (split_at_app newline _ _ (mem_char_str_of_nat newline _ eq_refl)).
  unfold opt_bind at 1. rewrite nat_of_str_of_nat. unfold opt_bind at 1.
  rewrite strip_prefix_app. unfold opt_bind at 1.
  rewrite (split_at_app " " _ _ (mem_char_str_of_nat " " _ eq_refl)).
  unfold opt_bind at 1. rewrite nat_of_str_of_nat. unfold opt_bind at 1.
  rewrite strip_prefix_app. unfold opt_bind at 1.
  rewrite (split_at_app newline _ _ Hm). unfold opt_bind at 1.
  rewrite strip_prefix_app. reflexivity.
Qed.

Lemma normalized_method (m : pyval) :
  (if recognized m then m else PyStr "pdfplumber")
  = PyStr (if eq_str m "pypdf2" then "pypdf2" else "pdfplumber").
Proof.
  unfold recognized.
  destruct (eq_str m "pypdf2") eqn:E2.
  - rewrite orb_true_r. destruct m as [| |z|ms]; try discriminate E2.
    simpl in E2. apply String.eqb_eq in E2. now subst.
  - rewrite orb_false_r. destruct (eq_str m "pdfplumber") eqn:E1; [|reflexivity].
    destruct m as [| |z|ms]; try discriminate E1.
    simpl in E1. apply String.eqb_eq in E1. now subst.
Qed.

(** X14. A report returned by [download_and_parse_pdf] for a URL without
    line breaks reads back consistently: the URL is the one given, the
    method is ["pypdf2"] if that was asked for and ["pdfplumber"]
    otherwise, the content length is the length of the content section,
    the pages processed are the occurrences of ["--- Page"] in it, and the
    content is not blank. *)
Theorem tool_report_parses
        (env : Env) (us : string) (m : pyval) (t t' : trace) (s : string) :
  download_and_parse_pdf env (PyStr us) m t = (Ok s, t') ->
  startswith (nl ++ "=== PDF Processing Results ===") s = true ->
  mem_char newline us = false ->
  exists f,
    parse_report s = Some f
    /\ source_url f = us
    /\ extraction_method f
       = (if eq_str m "pypdf2" then "pypdf2" else "pdfplumber")
    /\ length_field f = String.length (content_section f)
    /\ pages f = count "--- Page" (content_section f)
    /\ strip (content_section f) <> "".
Proof.
  rewrite download_and_parse_run.
  change (py_format (PyStr us)) with (@Ok string us). cbv beta iota zeta.
  destruct (negb (truthy (PyStr us)) || negb (isinstance_str (PyStr us))).
  { intros [= <- _] H. discriminate H. }
  rewrite normalized_method.
  match goal with
  | |- context [process_pdf_from_url env _ (PyStr ?ms) ?t0] =>
      destruct (download_pdf_total env (PyStr us) default_timeout t0)
        as (d & t1 & Hd);
      rewrite (process_run env (PyStr us) (PyStr ms) t0 t1 d Hd)
  end.
  destruct (not_bytes d).
  { intros [= <- _] H. discriminate H. }
  cbv zeta.
  match goal with
  | |- context [String.eqb (strip ?txt) ""] =>
      destruct (String.eqb (strip txt) "") eqn:E
  end.
  { intros [= <- _] H. discriminate H. }
  intros [= <- _] _ Hu. unfold format_report, success_result.
  cbn [metadata text].
  rewrite parse_report_header.
  - eexists. split; [reflexivity|]. cbn.
    repeat split; try reflexivity. now apply String.eqb_neq.
  - exact Hu.
  - cbn [method py_str]. now destruct (eq_str m "pypdf2").
Qed.

Lemma tool_report_parses_witness :
  exists f,
    parse_report
      (format_report
         (success_result (PyStr "https://example.org/a.pdf")
            (PyStr "pdfplumber") (join nl (page_blocks three_pages 1))))
    = Some f
    /\ source_url f = "https://example.org/a.pdf"
    /\ extraction_method f
       = (if eq_str (PyStr "PyPDF2") "pypdf2" then "pypdf2" else "pdfplumber")
    /\ length_field f = String.length (content_section f)
    /\ pages f = count "--- Page" (content_section f)
    /\ strip (content_section f) <> "".
Proof.
  apply (tool_report_parses (env_of example_body (Ok three_pages))
           "https://example.org/a.pdf" (PyStr "PyPDF2") []
           (snd (download_and_parse_pdf (env_of example_body (Ok three_pages))
                   (PyStr "https://example.org/a.pdf") (PyStr "PyPDF2") [])));
    reflexivity.
Defined.

(** ** The text of a longer document *)

Lemma page_blocks_app (pages more : list Page) (n : nat) :
  page_blocks (pages ++ more) n
  = (page_blocks pages n ++ page_blocks more (n + List.length pages))%list.
Proof.
  revert n. induction pages as [|p rest IH]; intros n; simpl.
  - now rewrite Nat.add_0_r.
  - rewrite IH, Nat.add_succ_r. simpl. now destruct (page_emits p).
Qed.

Lemma startswith_empty (s : string) : startswith "" s = true.
Proof. now destruct s. Qed.

Lemma startswith_app_both (a x y : string) :
  startswith (a ++ x) (a ++ y) = startswith x y.
Proof.
  unfold startswith. induction a as [|c a IH]; simpl; [reflexivity|].
  destruct (Ascii.ascii_dec c c) as [_|H]; [exact IH|now destruct H].
Qed.

Lemma startswith_app (a y : string) : startswith a (a ++ y) = true.
Proof.
  rewrite <- (startswith_empty y).
  replace a with (a ++ "") at 1; [apply startswith_app_both|].
  induction a as [|c a IH]; simpl; [reflexivity|now rewrite IH].
Qed.

Lemma join_prefix (sep : string) (l more : list string) :
  startswith (join sep l) (join sep (l ++ more)) = true.
Proof.
  unfold join. induction l as [|a l IH]; [apply startswith_empty|].
  destruct l as [|c l].
  - destruct more as [|d more]; simpl.
    + replace a with (a ++ "") at 2; [apply startswith_app|].
      clear. induction a as [|c a IH]; simpl; [reflexivity|now rewrite IH].
    + apply startswith_app.
  - change (startswith (a ++ sep ++ String.concat sep (c :: l))
              (a ++ sep ++ String.concat sep ((c :: l) ++ more)) = true).
    now rewrite !startswith_app_both.
Qed.

(** X15. Appending pages to a document leaves what is extracted from the
    earlier pages as it was, markers and numbers included: under either
    strategy the text of the shorter document is a prefix of the text of
    the longer one, whatever the added pages are (pages that raise or hold
    no text among them). *)
Theorem extract_extends
        (env : Env) (st : strategy) (b1 b2 : bytes)
        (pages more : list Page) (t1 t2 : trace) :
  open_document env st b1 = Ok pages ->
  open_document env st b2 = Ok (pages ++ more)%list ->
  exists txt1 txt2,
    fst (extract env st b1 t1) = Ok txt1
    /\ fst (extract env st b2 t2) = Ok txt2
    /\ startswith txt1 txt2 = true.
Proof.
  intros H1 H2. rewrite !extract_spec, H1, H2. simpl.
  do 2 eexists. split; [reflexivity|]. split; [reflexivity|].
  rewrite page_blocks_app. apply join_prefix.
Qed.

Lemma extract_extends_witness :
  exists txt1 txt2,
    fst (extract growing_env Pypdf2 [] []) = Ok txt1
    /\ fst (extract growing_env Pypdf2 example_body []) = Ok txt2
    /\ startswith txt1 txt2 = true.
Proof.
  apply (extract_extends growing_env Pypdf2 [] example_body
           three_pages pages_with_none [] []); reflexivity.
Defined.

(** ** The shape of the probe's answer *)

(** X16. [get_pdf_metadata] answers in one of two shapes, never both: with
    an ["error"] string and no ["status_code"], or with the ["status_code"]
    of the answer to the HEAD request and no ["error"].  In the second
    shape each of the three header fields is the string the server sent
    under that header, and the empty string when the server sent no such
    header (so ["content_length"] is text, not a number); ["url"] is in
    both shapes the argument as given. *)
Theorem metadata_shape (env : Env) (u : pyval) (t : trace) :
  exists d,
    fst (get_pdf_metadata env u t) = Ok d
    /\ dict_get "url" d = Some u
    /\ ((exists msg,
            dict_get "error" d = Some (PyStr msg)
            /\ dict_get "status_code" d = None
            /\ dict_get "content_type" d = None
            /\ dict_get "content_length" d = None
            /\ dict_get "last_modified" d = None)
        \/ (exists r,
               session_head env u 10 = Ok r
               /\ dict_get "error" d = None
               /\ dict_get "status_code" d = Some (PyInt (status_code r))
               /\ dict_get "content_type" d
                  = Some (PyStr match header r "content-type" with
                                | Some v => v
                                | None => ""
                                end)
               /\ dict_get "content_length" d
                  = Some (PyStr match header r "content-length" with
                                | Some v => v
                                | None => ""
                                end)
               /\ dict_get "last_modified" d
                  = Some (PyStr match header r "last-modified" with
                                | Some v => v
                                | None => ""
                                end))).
Proof.
  unfold get_pdf_metadata, http_head. run.
  destruct (session_head env u 10) as [r|e].
  - destruct (raise_for_status r) as [[]|e]; simpl; eexists;
      (split; [reflexivity|]); (split; [reflexivity|]).
    + right. exists r. repeat split; reflexivity.
    + left. eexists. repeat split; reflexivity.
  - simpl. eexists. split; [reflexivity|]. split; [reflexivity|].
    left. eexists. repeat split; reflexivity.
Qed.

Example metadata_missing_headers :
  fst (get_pdf_metadata redirect_env (PyStr "https://example.org/a.pdf") [])
  = Ok [ ("content_type", PyStr ""); ("content_length", PyStr "");
         ("last_modified", PyStr ""); ("status_code", PyInt 301);
         ("url", PyStr "https://example.org/a.pdf") ].
Proof. reflexivity. Qed.
